(** * ShowInvestor: the analytics and report pipeline of [ShowInvestor.py]

    A shallow embedding of [analyze_data], [generate_insights] and
    [generate_pdf], and the properties the specification states about them.

    Modelling conventions.
    - A [DataFrame] is a list of rows (one record per row, one field per
      column the program reads); the order of the list is the row order.
    - Amounts are exact rationals ([Q]).  The only IEEE value kept is [NaN],
      as the missing-value marker that [pd.to_numeric(errors="coerce")]
      writes and [dropna] removes; rounding, overflow to infinity and NaN
      arithmetic of float64 sums are outside this embedding.
    - What belongs to pandas and is not fixed by the source is a variable of
      the section [Pipeline]: how a text cell is read as a number or as a
      date, the two [sort_values] calls (pandas' default [kind="quicksort"]
      promises an ordered permutation and nothing about equal keys), and the
      default of [groupby]'s [observed] for a categorical key ([False] before
      pandas 3.0, [True] from 3.0 on).  [quicksort_by_amount] is the sort of
      the ranking with numpy's quicksort written out.
    - In the section [Pipeline], [pd.to_datetime] is taken cell by cell, on
      cells that hold a date or a text it rejects.  [Dated.analyze_data] is
      [analyze_data] with [pd.to_datetime] taken on the column as a whole
      and with NaT for a cell that holds no date.
    - [analyze_data] assigns to a column of its argument before it rebinds
      [df]; the embedding returns the state of the caller's table after the
      call next to the result.
    - The table [users] is the list of its rows in the order the SELECT of
      [validate_user] returns them; the SHA-256 digest and the database's
      comparison of user names are variables of the section [Login].  A
      Streamlit session is the list of the runs of [main], each with the
      values its widgets hold. *)

From Stdlib Require Import List String Ascii Bool ZArith QArith Qabs Lia Lqa.
From Stdlib Require Import Permutation Sorted OrderedTypeEx.
Import ListNotations.

Local Open Scope Q_scope.

(** ** Data *)

(** A cell of a raw column: text, a number, or a missing value. *)
Inductive cell : Type :=
| Str (s : string)
| Num (q : Q)
| NaN.

Inductive month : Type :=
| January | February | March | April | May | June
| July | August | September | October | November | December.

(** [month_order] of [analyze_data]: the categories of the [Month] column. *)
Definition month_order : list month :=
  [January; February; March; April; May; June;
   July; August; September; October; November; December].

(** [strftime("%B")]: the full month name, the value the categorical holds. *)
Definition month_name (m : month) : string :=
  match m with
  | January => "January" | February => "February" | March => "March"
  | April => "April" | May => "May" | June => "June"
  | July => "July" | August => "August" | September => "September"
  | October => "October" | November => "November" | December => "December"
  end.

(** The code of a category: its position in [month_order]. *)
Definition month_code (m : month) : nat :=
  match m with
  | January => 0 | February => 1 | March => 2 | April => 3 | May => 4
  | June => 5 | July => 6 | August => 7 | September => 8 | October => 9
  | November => 10 | December => 11
  end%nat.

Definition month_eqb (a b : month) : bool := Nat.eqb (month_code a) (month_code b).

(** Calendar order: [a] comes earlier in the year than [b]. *)
Definition month_lt (a b : month) : Prop := (month_code a < month_code b)%nat.

Record date : Type := mkDate { year : Z; month_of : month; day : Z }.

(** The two values of the [Type] column, the strings "Sales" and "Expense". *)
Inductive ttype : Type := Sales | Expense.

Definition ttype_eqb (a b : ttype) : bool :=
  match a, b with
  | Sales, Sales | Expense, Expense => true
  | _, _ => false
  end.

(** A row of the table handed to [analyze_data]: the three required columns,
    and the [Type] label the dashboard wrote from the file a row came from. *)
Module Raw.
Record row : Type := mk {
  Date : string;
  Description : string;
  Amount : cell;
  Type_ : option string
}.
End Raw.

(** A row of the table [analyze_data] returns. *)
Module Rec.
Record row : Type := mk {
  Date : date;
  Description : string;
  Amount : Q;
  Type_ : ttype;
  Month : month
}.
End Rec.

(** A row of [monthly_summary]. *)
Module Summary.
Record row : Type := mk { Month : month; Type_ : ttype; Amount : Q }.
End Summary.

(** An entry of [monthly_reviews]. *)
Module Review.
Record t : Type := mk {
  Month : month;
  Sales : Q;
  Expenses : Q;
  Profit : Q;
  Review : string
}.
End Review.

(** A row of [product_performance]. *)
Module Product.
Record row : Type := mk { Description : string; Amount : Q }.
End Product.

(** The dictionary [generate_insights] returns. *)
Record Insights : Type := mkInsights {
  total_sales : Q;
  total_expenses : Q;
  net_profit : Q;
  monthly_summary : list Summary.row;
  monthly_reviews : list Review.t;
  product_performance : list Product.row;
  top_products : list Product.row;
  underperforming_products : list Product.row
}.

(** ** Helpers that stand for pandas primitives *)

(** [Series.sum()]: 0 on an empty series. *)
Definition sum (l : list Q) : Q := fold_right Qplus 0 l.

(** [x > 0] on an amount. *)
Definition Qgtb (x y : Q) : bool :=
  match x ?= y with Gt => true | _ => false end.

Definition Qltb (x y : Q) : bool :=
  match x ?= y with Lt => true | _ => false end.

(** [Series.unique()]: the values in order of first appearance. *)
Fixpoint unique (l : list month) : list month :=
  match l with
  | [] => []
  | m :: l' => m :: filter (fun x => negb (month_eqb x m)) (unique l')
  end.

(** [head(n)] and [tail(n)] of a frame. *)
Definition head {A} (n : nat) (l : list A) : list A := firstn n l.
Definition tail {A} (n : nat) (l : list A) : list A := skipn (List.length l - n) l.

(** Sequencing of a fallible step over a column: the first failure fails all. *)
Fixpoint traverse {A B} (f : A -> option B) (l : list A) : option (list B) :=
  match l with
  | [] => Some []
  | a :: l' =>
      match f a with
      | None => None
      | Some b =>
          match traverse f l' with
          | None => None
          | Some bs => Some (b :: bs)
          end
      end
  end.

(** The keys of [groupby("Description")], sorted and without repeats. *)
Fixpoint insert_key (d : string) (l : list string) : list string :=
  match l with
  | [] => [d]
  | x :: l' =>
      match String.compare d x with
      | Lt => d :: l
      | Eq => l
      | Gt => x :: insert_key d l'
      end
  end.

Definition sorted_keys (l : list string) : list string :=
  fold_right insert_key [] l.

(** ** The pipeline *)

Section Pipeline.

(** How [pd.to_numeric] reads a text cell; [None] when it cannot. *)
Variable parse_number : string -> option Q.
(** How [pd.to_datetime] reads a cell; [None] when it raises. *)
Variable parse_date : string -> option date.
(** [df.sort_values("Month")]. *)
Variable sort_by_month : list Rec.row -> list Rec.row.
(** [product_performance.sort_values(by="Amount", ascending=False)]. *)
Variable sort_by_amount : list Product.row -> list Product.row.
(** The default of [observed] in [groupby]. *)
Variable observed : bool.

(** *** 4. Analyze Data *)

(** [pd.to_numeric(_, errors="coerce")] on one cell; [None] is NaN. *)
Definition to_numeric (c : cell) : option Q :=
  match c with
  | Num q => Some q
  | Str s => parse_number s
  | NaN => None
  end.

Definition numeric_cell (x : option Q) : cell :=
  match x with Some q => Num q | None => NaN end.

(** [df["Amount"] = pd.to_numeric(df["Amount"], errors="coerce")]: the
    assignment is to the table the caller passed. *)
Definition coerce_amount (r : Raw.row) : Raw.row :=
  Raw.mk (Raw.Date r) (Raw.Description r)
         (numeric_cell (to_numeric (Raw.Amount r))) (Raw.Type_ r).

(** [df.dropna(subset=["Amount"])]: a new table with the rows whose amount
    is a number, each paired with that number. *)
Fixpoint dropna (df : list Raw.row) : list (Raw.row * Q) :=
  match df with
  | [] => []
  | r :: df' =>
      match to_numeric (Raw.Amount r) with
      | Some q => (r, q) :: dropna df'
      | None => dropna df'
      end
  end.

(** [lambda x: "Sales" if x > 0 else "Expense"]. *)
Definition classify (x : Q) : ttype := if Qgtb x 0 then Sales else Expense.

(** Lines 70 to 81 on one retained row: the parsed date, the type from the
    amount, the month from the date.  [None] when the date does not parse. *)
Definition enrich (rq : Raw.row * Q) : option Rec.row :=
  match parse_date (Raw.Date (fst rq)) with
  | None => None
  | Some d =>
      Some (Rec.mk d (Raw.Description (fst rq)) (snd rq)
                   (classify (snd rq)) (month_of d))
  end.

(** [analyze_data(df)]: the caller's table after the call, and the returned
    table ([None] when [pd.to_datetime] raises). *)
Definition analyze_data (df : list Raw.row)
  : list Raw.row * option (list Rec.row) :=
  let df1 := map coerce_amount df in
  let kept := dropna df1 in
  (df1,
   match traverse enrich kept with
   | None => None
   | Some rows => Some (sort_by_month rows)
   end).

(** A row [dropna] keeps: its amount can be coerced to a number. *)
Definition coercible (r : Raw.row) : bool :=
  match to_numeric (Raw.Amount r) with Some _ => true | None => false end.

(** [x] is the raw row [r] normalized: amount coerced, date parsed, the
    description as it was, type and month derived. *)
Definition normalized_from (r : Raw.row) (x : Rec.row) : Prop :=
  to_numeric (Raw.Amount r) = Some (Rec.Amount x)
  /\ parse_date (Raw.Date r) = Some (Rec.Date x)
  /\ Rec.Description x = Raw.Description r
  /\ Rec.Type_ x = classify (Rec.Amount x)
  /\ Rec.Month x = month_of (Rec.Date x).

(** *** 5. Generate Insights *)

(** [df["Type"] == t]. *)
Definition is_type (t : ttype) (r : Rec.row) : bool :=
  ttype_eqb (Rec.Type_ r) t.

(** [df[df["Type"] == t]["Amount"].sum()]. *)
Definition total_of (t : ttype) (df : list Rec.row) : Q :=
  sum (map Rec.Amount (filter (is_type t) df)).

(** The rows of one group of [groupby(["Month", "Type"])]. *)
Definition in_group (m : month) (t : ttype) (r : Rec.row) : bool :=
  month_eqb (Rec.Month r) m && ttype_eqb (Rec.Type_ r) t.

(** [k] is the key of month [m] and type [t]. *)
Definition key_eqb (m : month) (t : ttype) (k : month * ttype) : bool :=
  month_eqb (fst k) m && ttype_eqb (snd k) t.

(** The sum of one group of the data. *)
Definition group_sum (df : list Rec.row) (m : month) (t : ttype) : Q :=
  sum (map Rec.Amount (filter (in_group m t) df)).

(** The values of [Type] in key order: "Expense" sorts before "Sales". *)
Definition type_order : list ttype := [Expense; Sales].

(** The keys of [groupby(["Month", "Type"])], sorted.  With [observed] the
    pairs that occur in the data; without it every category of [Month]
    paired with every [Type] that occurs in the data. *)
Definition group_keys (df : list Rec.row) : list (month * ttype) :=
  if observed then
    filter (fun k => existsb (in_group (fst k) (snd k)) df)
           (list_prod month_order type_order)
  else
    list_prod month_order
              (filter (fun t => existsb (is_type t) df) type_order).

(** [df.groupby(["Month", "Type"])["Amount"].sum().reset_index()]: a group
    without rows sums to 0. *)
Definition groupby_month_type (df : list Rec.row) : list Summary.row :=
  map (fun k =>
         Summary.mk (fst k) (snd k) (group_sum df (fst k) (snd k)))
      (group_keys df).

(** The sum of [monthly_summary] over one month and one type (lines 109 and
    110). *)
Definition summary_amount (summary : list Summary.row) (m : month) (t : ttype)
  : Q :=
  sum (map Summary.Amount
         (filter (fun s => month_eqb (Summary.Month s) m
                           && ttype_eqb (Summary.Type_ s) t) summary)).

Definition review_positive : string :=
  "The business performed well this month with a positive profit margin.".
Definition review_negative : string :=
  "Expenses were higher than sales, resulting in a loss this month. Consider reducing expenses.".
Definition review_balanced : string :=
  "Sales and expenses were balanced this month.".

(** The [if profit > 0 / elif profit < 0 / else] of lines 114 to 119. *)
Definition review_text (profit : Q) : string :=
  if Qgtb profit 0 then review_positive
  else if Qltb profit 0 then review_negative
  else review_balanced.

(** The body of the loop of lines 108 to 127. *)
Definition review_of (summary : list Summary.row) (m : month) : Review.t :=
  let sales := summary_amount summary m Sales in
  let expenses := summary_amount summary m Expense in
  let profit := sales + expenses in
  Review.mk m sales expenses profit (review_text profit).

(** [rows.groupby("Description")["Amount"].sum().reset_index()]. *)
Definition groupby_description (rows : list Rec.row) : list Product.row :=
  map (fun d =>
         Product.mk d
           (sum (map Rec.Amount
                   (filter (fun r => String.eqb (Rec.Description r) d) rows))))
      (sorted_keys (map Rec.Description rows)).

Definition generate_insights (df : list Rec.row) : Insights :=
  let total_sales := total_of Sales df in
  let total_expenses := total_of Expense df in
  let net_profit := total_sales + total_expenses in
  let monthly_summary := groupby_month_type df in
  let monthly_reviews :=
    map (review_of monthly_summary)
        (unique (map Summary.Month monthly_summary)) in
  let product_performance :=
    sort_by_amount (groupby_description (filter (is_type Sales) df)) in
  let top_products := head 5 product_performance in
  let underperforming_products := tail 5 product_performance in
  mkInsights total_sales total_expenses net_profit monthly_summary
             monthly_reviews product_performance top_products
             underperforming_products.

End Pipeline.

(** ** Charts and the report *)

(** What a chart helper plots; the PNG encoding is not modelled. *)
Inductive chart : Type :=
| AggregateChart (months : list month) (sales expenses profit : list Q)
| MonthlyChart (title : string) (labels : list string) (values : list Q).

(** A table cell: text, or an amount to print with the naira sign,
    thousands separators and two decimals (the format [:,.2f]). *)
Inductive tcell : Type :=
| Text (s : string)
| Money (x : Q).

Inductive style : Type := Title | Heading2 | Normal.

Inductive image_source : Type :=
| Logo (file : string)
| Chart (c : chart).

(** The reportlab flowables [generate_pdf] appends to [elements]; the table
    styles are left out. *)
Inductive flowable : Type :=
| Image (src : image_source) (width height : Z)
| Paragraph (text : string) (st : style)
| Spacer (width height : Z)
| Table (data : list (list tcell)) (colWidths : list Z)
| PageBreak.

Definition generate_aggregate_chart (monthly_reviews : list Review.t) : chart :=
  AggregateChart (map Review.Month monthly_reviews)
                 (map Review.Sales monthly_reviews)
                 (map (fun review => Qabs (Review.Expenses review)) monthly_reviews)
                 (map Review.Profit monthly_reviews).

Definition generate_monthly_chart (m : month) (sales expenses : Q) : chart :=
  MonthlyChart ("Performance for " ++ month_name m)
               ["Sales"; "Expenses"]%string [sales; Qabs expenses].

(** [business_name or 'Business Name']: [None] and the empty string are
    both false. *)
Definition name_or_default (business_name : option string) : string :=
  match business_name with
  | Some (String c s) => String c s
  | _ => "Business Name"
  end.

(** One turn of the loop of lines 224 to 230. *)
Definition summary_row (review : Review.t) : list tcell :=
  [Text (month_name (Review.Month review));
   Money (Review.Sales review);
   Money (Qabs (Review.Expenses review));
   Money (Review.Profit review)].

(** One turn of the loop of lines 255 to 277: what it appends. *)
Definition monthly_elements (review : Review.t) : list flowable :=
  [Paragraph ("Monthly Performance - " ++ month_name (Review.Month review))
             Heading2;
   Table [[Text "Sales"; Money (Review.Sales review)];
          [Text "Expenses"; Money (Qabs (Review.Expenses review))];
          [Text "Profit"; Money (Review.Profit review)]]
         [200; 200]%Z;
   Image (Chart (generate_monthly_chart (Review.Month review)
                   (Review.Sales review) (Review.Expenses review)))
         400 250;
   Spacer 1 12;
   Paragraph ("**Summary**: " ++ Review.Review review) Normal;
   PageBreak].

(** [generate_pdf]: the list [elements] handed to [doc.build].  [today] is
    the report date [datetime.now()] gives; [data] and [file_name] are not
    read by the function. *)
Definition generate_pdf (today title : string) (business_logo : option string)
  (business_name : option string) (insights : Insights) : list flowable :=
  let elements := [] in
  let elements :=
    match business_logo with
    | Some file => elements ++ [Image (Logo file) 100 100]
    | None => elements
    end in
  let elements :=
    elements ++ [Paragraph ("<b>" ++ name_or_default business_name ++ "</b>")
                           Title] in
  let elements := elements ++ [Paragraph title Heading2] in
  let elements := elements ++ [Paragraph ("Report Date: " ++ today) Normal] in
  let elements := elements ++ [Spacer 1 12] in
  let elements :=
    elements ++ [Paragraph "Annual Performance Summary (Detailed)" Heading2] in
  let table_data :=
    fold_left (fun rows review => rows ++ [summary_row review])
              (monthly_reviews insights)
              [[Text "Month"; Text "Sales"; Text "Expenses"; Text "Profit"]] in
  let elements := elements ++ [Table table_data [100; 100; 100; 100]%Z] in
  let elements := elements ++ [Spacer 1 12] in
  let aggregate_chart := generate_aggregate_chart (monthly_reviews insights) in
  let elements := elements ++ [Paragraph "Overall Performance Chart" Heading2] in
  let elements := elements ++ [Image (Chart aggregate_chart) 400 250] in
  let elements := elements ++ [PageBreak] in
  fold_left (fun elements review => elements ++ monthly_elements review)
            (monthly_reviews insights) elements.

(** ** 7. Dashboard: the table handed to [analyze_data] *)

(** [sales_df["Type"] = "Sales"] and [expenses_df["Type"] = "Expense"]. *)
Definition set_type (label : string) (r : Raw.row) : Raw.row :=
  Raw.mk (Raw.Date r) (Raw.Description r) (Raw.Amount r) (Some label).

(** [pd.concat([sales_df, expenses_df], ignore_index=True)] after the two
    assignments of lines 326 and 327. *)
Definition dashboard_table (sales_df expenses_df : list Raw.row) : list Raw.row :=
  map (set_type "Sales") sales_df ++ map (set_type "Expense") expenses_df.

(** A row without the label it was given. *)
Definition unlabelled (r : Raw.row) : Raw.row :=
  Raw.mk (Raw.Date r) (Raw.Description r) (Raw.Amount r) None.

(** ** What the pipeline asks of pandas' [sort_values] *)

Definition month_le (a b : Rec.row) : Prop :=
  (month_code (Rec.Month a) <= month_code (Rec.Month b))%nat.

(** Descending amounts: [a] may stand before [b]. *)
Definition amount_ge (a b : Product.row) : Prop :=
  Product.Amount b <= Product.Amount a.

(** The order of the keys of [groupby("Description")]: byte-wise
    lexicographic, [a] before [b]. *)
Definition description_lt (a b : string) : Prop := String.compare a b = Lt.

(** [sort_values] returns the rows it was given, in key order. *)
Definition sorts_by_month (f : list Rec.row -> list Rec.row) : Prop :=
  forall l, Permutation (f l) l /\ Sorted month_le (f l).

Definition sorts_by_amount (f : list Product.row -> list Product.row) : Prop :=
  forall l, Permutation (f l) l /\ Sorted amount_ge (f l).

(** ** Instances: sorts and readers to run the pipeline with *)

(** Insertion sort: [x] goes before the first [y] with [before x y]. *)
Fixpoint insert_by {A} (before : A -> A -> bool) (x : A) (l : list A) : list A :=
  match l with
  | [] => [x]
  | y :: l' => if before x y then x :: l else y :: insert_by before x l'
  end.

Definition insertion_sort {A} (before : A -> A -> bool) (l : list A) : list A :=
  fold_right (insert_by before) [] l.

(** A stable sort by month: equal months keep the order of the input. *)
Definition stable_by_month : list Rec.row -> list Rec.row :=
  insertion_sort
    (fun a b => Nat.leb (month_code (Rec.Month a)) (month_code (Rec.Month b))).

(** A stable descending sort by amount: equal amounts keep the order of the
    groups. *)
Definition stable_by_amount : list Product.row -> list Product.row :=
  insertion_sort
    (fun a b => Qle_bool (Product.Amount b) (Product.Amount a)).

Definition digit (c : ascii) : option Z :=
  let n := Z.of_nat (nat_of_ascii c) in
  if ((48 <=? n) && (n <=? 57))%Z then Some (n - 48)%Z else None.

Fixpoint read_digits (acc : Z) (s : string) : option Z :=
  match s with
  | EmptyString => Some acc
  | String c s' =>
      match digit c with
      | Some d => read_digits (10 * acc + d) s'
      | None => None
      end
  end.

Definition read_natural (s : string) : option Z :=
  match s with
  | EmptyString => None
  | _ => read_digits 0 s
  end.

(** A reader of whole numbers with an optional minus sign. *)
Definition read_number (s : string) : option Q :=
  match s with
  | String "-"%char s' => option_map (fun z => inject_Z (- z)) (read_natural s')
  | _ => option_map inject_Z (read_natural s)
  end.

Definition month_of_number (n : Z) : option month :=
  nth_error month_order (Z.to_nat (n - 1)).

(** A reader of dates written [YYYY-MM-DD]. *)
Definition read_date (s : string) : option date :=
  if negb (Nat.eqb (String.length s) 10) then None
  else if negb (String.eqb (substring 4 1 s) "-"
                && String.eqb (substring 7 1 s) "-") then None
  else
    match read_natural (substring 0 4 s),
          read_natural (substring 5 2 s),
          read_natural (substring 8 2 s) with
    | Some y, Some m, Some d =>
        if ((1 <=? m) && (m <=? 12) && (1 <=? d) && (d <=? 31))%Z then
          option_map (fun mo => mkDate y mo d) (month_of_number m)
        else None
    | _, _, _ => None
    end.

(** ** [sort_values] as pandas runs it by default

    [sort_values] without [kind] sorts with numpy's
    [argsort(kind="quicksort")]: introsort, as [aquicksort] of numpy's
    npysort/quicksort.cpp has it (median of three; a partition of up to 17
    items is sorted by insertion; a partition taken from the stack below the
    depth limit is sorted by [aheapsort]).  The functions below move the
    items where numpy moves their indices; a partition is a list of its own,
    its positions counted from 0. *)

Section Quicksort.

Local Open Scope nat_scope.

Context {A : Type}.
(** [Tag::less] on the keys of two items. *)
Variable less : A -> A -> bool.

Fixpoint set_nth (i : nat) (x : A) (a : list A) : list A :=
  match a, i with
  | [], _ => []
  | _ :: a', O => x :: a'
  | y :: a', S i' => y :: set_nth i' x a'
  end.

(** [INTP_SWAP(a[i], a[j])]. *)
Definition intp_swap (i j : nat) (a : list A) : list A :=
  match nth_error a i, nth_error a j with
  | Some x, Some y => set_nth i y (set_nth j x a)
  | _, _ => a
  end.

(** [less(v[a[i]], v[a[j]])]. *)
Definition less_at (a : list A) (i j : nat) : bool :=
  match nth_error a i, nth_error a j with
  | Some x, Some y => less x y
  | _, _ => false
  end.

(** [if (less(v[a[i]], v[a[j]])) INTP_SWAP(a[i], a[j])]. *)
Definition swap_if_less (i j : nat) (a : list A) : list A :=
  if less_at a i j then intp_swap i j a else a.

(** [do ++pi; while (less(v[*pi], vp))]: the position [pi] stops at. *)
Fixpoint scan_up (fuel : nat) (vp : A) (a : list A) (pi : nat) : nat :=
  match fuel with
  | O => S pi
  | S fuel' =>
      match nth_error a (S pi) with
      | Some x => if less x vp then scan_up fuel' vp a (S pi) else S pi
      | None => S pi
      end
  end.

(** [do --pj; while (less(vp, v[*pj]))]: the position [pj] stops at. *)
Fixpoint scan_down (vp : A) (a : list A) (pj : nat) : nat :=
  match pj with
  | O => O
  | S pj' =>
      match nth_error a pj' with
      | Some x => if less vp x then scan_down vp a pj' else pj'
      | None => pj'
      end
  end.

(** The [for (;;)] of the partition: the partition and where [pi] stands
    when the two scans have met. *)
Fixpoint partition (fuel : nat) (vp : A) (a : list A) (pi pj : nat)
  : list A * nat :=
  match fuel with
  | O => (a, pi)
  | S fuel' =>
      let pi := scan_up (List.length a) vp a pi in
      let pj := scan_down vp a pj in
      if pj <=? pi then (a, pi)
      else partition fuel' vp (intp_swap pi pj a) pi pj
  end.

(** The insertion sort of a short partition: an item moves left past the
    items that are greater; [sorted] is the part before it, last item
    first. *)
Fixpoint insert_back (x : A) (sorted : list A) : list A :=
  match sorted with
  | [] => [x]
  | y :: sorted' => if less x y then y :: insert_back x sorted' else x :: sorted
  end.

Definition insertion (a : list A) : list A :=
  rev (fold_left (fun sorted x => insert_back x sorted) a []).

(** [aheapsort]: positions are counted from 1 there. *)
Definition heap_get (a : list A) (k : nat) : option A := nth_error a (k - 1).

Definition heap_set (k : nat) (x : A) (a : list A) : list A := set_nth (k - 1) x a.

(** The inner [for (i, j; j <= n;)] of [aheapsort] and the assignment
    [a[i] = tmp] behind it. *)
Fixpoint sift (fuel : nat) (tmp : A) (a : list A) (i j n : nat) : list A :=
  match fuel with
  | O => heap_set i tmp a
  | S fuel' =>
      if j <=? n then
        let j :=
          match heap_get a j, heap_get a (j + 1) with
          | Some x, Some y => if (j <? n) && less x y then j + 1 else j
          | _, _ => j
          end in
        match heap_get a j with
        | Some y =>
            if less tmp y then sift fuel' tmp (heap_set i y a) j (j + j) n
            else heap_set i tmp a
        | None => heap_set i tmp a
        end
      else heap_set i tmp a
  end.

Definition aheapsort (a : list A) : list A :=
  let n := List.length a in
  let a :=
    fold_left (fun a l =>
                 match heap_get a l with
                 | Some tmp => sift n tmp a l (l + l) n
                 | None => a
                 end)
              (rev (seq 1 (n / 2))) a in
  fold_left (fun a m =>
               match heap_get a m, heap_get a 1 with
               | Some tmp, Some top => sift n tmp (heap_set m top a) 1 2 (m - 1)
               | _, _ => a
               end)
            (rev (seq 2 (n - 1))) a.

Definition SMALL_QUICKSORT : nat := 16.

(** The loop of [aquicksort] on one partition.  [popped] says that the
    partition was taken from the stack, where the depth limit is tested; the
    smaller part of a partition is carried on without the test, the larger
    part is pushed on the stack. *)
Fixpoint aquicksort_loop (fuel : nat) (popped : bool) (cdepth : Z) (a : list A)
  : list A :=
  match fuel with
  | O => a
  | S fuel' =>
      if popped && (cdepth <? 0)%Z then aheapsort a
      else
        let pr := List.length a - 1 in
        if SMALL_QUICKSORT <? pr then
          let pm := pr / 2 in
          let a := swap_if_less pm 0 a in
          let a := swap_if_less pr pm a in
          let a := swap_if_less pm 0 a in
          match nth_error a pm with
          | None => a
          | Some vp =>
              let a := intp_swap pm (pr - 1) a in
              let (a, pi) := partition (List.length a) vp a 0 (pr - 1) in
              let a := intp_swap pi (pr - 1) a in
              let left_smaller := pi <? pr - pi in
              aquicksort_loop fuel' (negb left_smaller) (cdepth - 1)%Z (firstn pi a)
              ++ firstn 1 (skipn pi a)
              ++ aquicksort_loop fuel' left_smaller (cdepth - 1)%Z (skipn (S pi) a)
          end
        else insertion a
  end.

(** [npy_aquicksort]: the depth limit is twice [npy_get_msb] of the
    length. *)
Definition aquicksort (a : list A) : list A :=
  aquicksort_loop (S (List.length a)) true
                  (2 * Z.of_nat (Nat.log2 (List.length a)))%Z a.

End Quicksort.

(** [sort_values(by="Amount", ascending=False)]: pandas' [nargsort] hands
    numpy the keys in reverse and reverses what comes back. *)
Definition quicksort_by_amount (rows : list Product.row) : list Product.row :=
  rev (aquicksort (fun a b => Qltb (Product.Amount a) (Product.Amount b))
                  (rev rows)).

(** ** [analyze_data] with the [Date] column as [pd.to_datetime] reads it

    [pd.to_datetime] is handed the column, not a cell: it raises, or it
    returns a date or NaT for every cell.  A cell that holds no date (an
    empty cell) gives NaT and no error; the row then has NaN for its month,
    and [sort_values] puts it behind the rows that have a month. *)

Module Dated.

(** A row of the table [analyze_data] returns: [None] is NaT in [Date] and
    NaN in [Month]. *)
Record row : Type := mk {
  Date : option date;
  Description : string;
  Amount : Q;
  Type_ : ttype;
  Month : option month
}.

Section Column.

Variable parse_number : string -> option Q.
(** [pd.to_datetime] on a column: [None] when it gives no column of dates
    (it raises, or line 76 raises on what it returned), else what it makes
    of each cell, [None] for NaT. *)
Variable to_datetime : list string -> option (list (option date)).
(** [df.sort_values("Month")]. *)
Variable sort_by_month : list row -> list row.

(** Lines 70 to 81 on one retained row and what [pd.to_datetime] made of its
    date. *)
Definition enrich (rq : Raw.row * Q) (d : option date) : row :=
  mk d (Raw.Description (fst rq)) (snd rq) (classify (snd rq))
     (option_map month_of d).

Definition analyze_data (df : list Raw.row)
  : list Raw.row * option (list row) :=
  let df1 := map (coerce_amount parse_number) df in
  let kept := dropna parse_number df1 in
  (df1,
   match to_datetime (map (fun rq => Raw.Date (fst rq)) kept) with
   | None => None
   | Some dates =>
       Some (sort_by_month
               (map (fun rd => enrich (fst rd) (snd rd)) (combine kept dates)))
   end).

(** [x] is the raw row [r] normalized, [d] being what [pd.to_datetime] made
    of its date. *)
Definition normalized_from (r : Raw.row) (d : option date) (x : row) : Prop :=
  to_numeric parse_number (Raw.Amount r) = Some (Amount x)
  /\ Date x = d
  /\ Description x = Raw.Description r
  /\ Type_ x = classify (Amount x)
  /\ Month x = option_map month_of d.

End Column.

(** Where [sort_values] puts a month: the categories in calendar order, NaN
    last. *)
Definition month_rank (m : option month) : nat :=
  match m with Some m => month_code m | None => 12%nat end.

Definition month_le (a b : row) : Prop :=
  (month_rank (Month a) <= month_rank (Month b))%nat.

Definition sorts_by_month (f : list row -> list row) : Prop :=
  forall l, Permutation (f l) l /\ Sorted month_le (f l).

(** What is asked of [pd.to_datetime]: one entry for each cell. *)
Definition keeps_length (to_datetime : list string -> option (list (option date)))
  : Prop :=
  forall column dates,
    to_datetime column = Some dates -> List.length dates = List.length column.

(** A stable sort by month. *)
Definition stable_by_month : list row -> list row :=
  insertion_sort
    (fun a b => Nat.leb (month_rank (Month a)) (month_rank (Month b))).

End Dated.

(** [pd.to_datetime] on a column of empty cells and dates written
    [YYYY-MM-DD]; this reader raises on any other cell. *)
Definition sample_to_datetime (column : list string)
  : option (list (option date)) :=
  traverse (fun s => if String.eqb s "" then Some None
                     else option_map Some (read_date s))
           column.

(** ** The statements of the specification that the code does not meet *)

(** The months that occur in the data, in calendar order. *)
Definition months_present (df : list Rec.row) : list month :=
  filter (fun m => existsb (fun r => month_eqb (Rec.Month r) m) df) month_order.

(** "One MonthlyReview per month present in the data and no entry for an
    absent month, in calendar order." *)
Definition reviews_only_present_months
  (sort_by_amount : list Product.row -> list Product.row) (observed : bool)
  (df : list Rec.row) : Prop :=
  map Review.Month
      (monthly_reviews (generate_insights sort_by_amount observed df))
  = months_present df.

(** "Ties between equal sums are broken by the group iteration order (a
    stable sort)." *)
Definition ranking_is_stable
  (sort_by_amount : list Product.row -> list Product.row) (observed : bool)
  (df : list Rec.row) : Prop :=
  product_performance (generate_insights sort_by_amount observed df)
  = stable_by_amount (groupby_description (filter (is_type Sales) df)).

(** What follows the first page break of a document. *)
Fixpoint after_page_break (elements : list flowable) : list flowable :=
  match elements with
  | [] => []
  | PageBreak :: rest => rest
  | _ :: rest => after_page_break rest
  end.

(** "Each MonthlyReview contributes a two-row financial table, the per-month
    chart image, the narration text, then a page break." *)
Fixpoint two_row_sections (reviews : list Review.t) (elements : list flowable)
  : Prop :=
  match reviews with
  | [] => elements = []
  | review :: reviews' =>
      exists data widths src w h rest,
        elements = Table data widths :: Image src w h
                   :: Paragraph ("**Summary**: " ++ Review.Review review) Normal
                   :: PageBreak :: rest
        /\ List.length data = 2%nat
        /\ two_row_sections reviews' rest
  end.

(** The tables of a list of flowables. *)
Fixpoint tables (elements : list flowable) : list (list (list tcell)) :=
  match elements with
  | [] => []
  | Table data _ :: rest => data :: tables rest
  | _ :: rest => tables rest
  end.

(** "Normalization leaves the caller's input table unchanged." *)
Definition argument_unchanged (parse_number : string -> option Q)
  (parse_date : string -> option date)
  (sort_by_month : list Rec.row -> list Rec.row) (df : list Raw.row) : Prop :=
  fst (analyze_data parse_number parse_date sort_by_month df) = df.

(** "A date value that cannot be parsed fails the entire normalization
    operation for the whole batch": [pd.to_datetime] raises on the date of a
    row of the table, and the call on the table fails. *)
Definition unparsed_date_is_fatal (parse_number : string -> option Q)
  (to_datetime : list string -> option (list (option date)))
  (sort_by_month : list Dated.row -> list Dated.row) (df : list Raw.row)
  : Prop :=
  forall r, In r df -> to_datetime [Raw.Date r] = None ->
    snd (Dated.analyze_data parse_number to_datetime sort_by_month df) = None.

(** ** Sample data *)

Definition row (d desc : string) (a : cell) : Raw.row := Raw.mk d desc a None.

(** The scenario of the specification: two January rows for one product. *)
Definition widget_rows : list Raw.row :=
  [row "2024-01-05" "Widget" (Str "100"); row "2024-01-10" "Widget" (Str "-40")].

(** Rows with an amount and a date that cannot be read. *)
Definition mixed_rows : list Raw.row :=
  [row "2024-03-02" "Gadget" (Str "250");
   row "not-a-date" "Broken" (Str "abc");
   row "2024-01-05" "Widget" (Num 100);
   row "2024-01-20" "Rent" (Str "-300");
   row "2024-03-09" "Refund" (Num 0)].

Definition bad_date_rows : list Raw.row :=
  [row "2024-03-02" "Gadget" (Str "250"); row "not-a-date" "Widget" (Str "100")].

Definition sale (d : date) (desc : string) (a : Q) : Rec.row :=
  Rec.mk d desc a Sales (month_of d).

Definition expense (d : date) (desc : string) (a : Q) : Rec.row :=
  Rec.mk d desc a Expense (month_of d).

(** One sale in January and nothing else. *)
Definition january_only : list Rec.row :=
  [sale (mkDate 2024 January 5) "Widget" 100].

(** Two products with equal sums, and a third. *)
Definition tied_products : list Rec.row :=
  [sale (mkDate 2024 January 5) "Anvil" 60;
   sale (mkDate 2024 February 7) "Bolt" 100;
   sale (mkDate 2024 February 9) "Anvil" 40;
   sale (mkDate 2024 March 1) "Clamp" 20;
   expense (mkDate 2024 March 3) "Rent" (-50)].

(** Seven products, each sold once. *)
Definition seven_products : list Rec.row :=
  [sale (mkDate 2024 January 1) "P1" 10; sale (mkDate 2024 January 2) "P2" 70;
   sale (mkDate 2024 January 3) "P3" 30; sale (mkDate 2024 January 4) "P4" 50;
   sale (mkDate 2024 January 5) "P5" 20; sale (mkDate 2024 January 6) "P6" 60;
   sale (mkDate 2024 January 7) "P7" 40].

(** The table [analyze_data] returns for [widget_rows]. *)
Definition widget_records : list Rec.row :=
  [sale (mkDate 2024 January 5) "Widget" 100;
   expense (mkDate 2024 January 10) "Widget" (-40)].

(** Two uploaded files: the sales file holds a negative amount, the expenses
    file a positive one and a zero. *)
Definition sales_file : list Raw.row :=
  [row "2024-01-05" "Widget" (Str "100"); row "2024-02-01" "Return" (Str "-25")].

Definition expenses_file : list Raw.row :=
  [row "2024-01-10" "Rent" (Str "-40"); row "2024-01-15" "Rebate" (Str "15");
   row "2024-02-03" "Void" (Num 0)].

(** The table [analyze_data] returns for the two files. *)
Definition files_records : list Rec.row :=
  [sale (mkDate 2024 January 5) "Widget" 100;
   expense (mkDate 2024 January 10) "Rent" (-40);
   sale (mkDate 2024 January 15) "Rebate" 15;
   expense (mkDate 2024 February 1) "Return" (-25);
   expense (mkDate 2024 February 3) "Void" 0].

(** The table [analyze_data] returns for [mixed_rows]. *)
Definition mixed_records : list Rec.row :=
  [sale (mkDate 2024 January 5) "Widget" 100;
   expense (mkDate 2024 January 20) "Rent" (-300);
   sale (mkDate 2024 March 2) "Gadget" 250;
   expense (mkDate 2024 March 9) "Refund" 0].

(** A row without a date among rows with one, and a row that [dropna]
    drops. *)
Definition blank_date_rows : list Raw.row :=
  [row "2024-03-02" "Gadget" (Str "250");
   row "" "Widget" (Str "100");
   row "not-a-date" "Broken" (Str "abc");
   row "2024-01-20" "Rent" (Str "-300")].

(** The table [Dated.analyze_data] returns for [blank_date_rows]. *)
Definition blank_date_records : list Dated.row :=
  [Dated.mk (Some (mkDate 2024 January 20)) "Rent" (-300) Expense (Some January);
   Dated.mk (Some (mkDate 2024 March 2)) "Gadget" 250 Sales (Some March);
   Dated.mk None "Widget" 100 Sales None].

(** The table [Dated.analyze_data] returns for [mixed_rows]. *)
Definition mixed_dated_records : list Dated.row :=
  [Dated.mk (Some (mkDate 2024 January 5)) "Widget" 100 Sales (Some January);
   Dated.mk (Some (mkDate 2024 January 20)) "Rent" (-300) Expense (Some January);
   Dated.mk (Some (mkDate 2024 March 2)) "Gadget" 250 Sales (Some March);
   Dated.mk (Some (mkDate 2024 March 9)) "Refund" 0 Expense (Some March)].

(** The name of product [i]: the letter P and three digits. *)
Definition product_name (i : nat) : string :=
  String "P"
    (String (ascii_of_nat (48 + i / 100))
       (String (ascii_of_nat (48 + (i / 10) mod 10))
          (String (ascii_of_nat (48 + i mod 10)) EmptyString))).

(** [n] products, each sold once for the same amount. *)
Definition tied_sales (n : nat) : list Rec.row :=
  map (fun i => sale (mkDate 2024 January 1) (product_name i) 10) (seq 1 n).

(** ** Rows as [analyze_data] types them *)

(** The [Type] of the row is the one line 73 derives from its amount. *)
Definition typed_by_sign (r : Rec.row) : Prop :=
  Rec.Type_ r = classify (Rec.Amount r).

(** The numbers of a raw [Amount] column, the cells [dropna] drops left
    out. *)
Definition numeric_amounts (parse_number : string -> option Q)
  (df : list Raw.row) : list Q :=
  map snd (dropna parse_number df).

(** How often [PageBreak] occurs among the flowables. *)
Definition page_breaks (elements : list flowable) : nat :=
  List.length
    (filter (fun e => match e with PageBreak => true | _ => false end) elements).

(** The header row of the annual summary table (line 221). *)
Definition summary_header : list tcell :=
  [Text "Month"; Text "Sales"; Text "Expenses"; Text "Profit"].

(** The table of one monthly section (lines 257 to 261). *)
Definition monthly_table (review : Review.t) : list (list tcell) :=
  [[Text "Sales"; Money (Review.Sales review)];
   [Text "Expenses"; Money (Qabs (Review.Expenses review))];
   [Text "Profit"; Money (Review.Profit review)]].

(** ** 1 to 3. Connection, password hash, user validation *)

(** A row of the table [users]; a column may hold NULL. *)
Module User.
Record row : Type := mk {
  username : string;
  password : option string;
  role : option string
}.
End User.

Section Login.

(** [hash_password]: the SHA-256 hex digest, not modelled further. *)
Variable hash_password : string -> string.
(** The database's reading of [username = %s]: stored name, given name. *)
Variable same_username : string -> string -> bool.

(** [cursor.fetchone()] after the SELECT of line 48: the first row that
    matches, if any. *)
Definition fetchone (users : list User.row) (username : string)
  : option User.row :=
  find (fun u => same_username (User.username u) username) users.

(** [validate_user]; [conn] is what [create_connection] returned, the table
    it gives access to or [None]. *)
Definition validate_user (conn : option (list User.row))
  (username password : string) : option string :=
  match conn with
  | Some users =>
      match fetchone users username with
      | Some user =>
          match User.password user with
          | Some stored =>
              if String.eqb (hash_password password) stored
              then User.role user else None
          | None => None
          end
      | None => None
      end
  | None => None
  end.

(** ** 8. Main application *)

Inductive menu : Type := MenuDashboard | MenuLogout.

(** The values the widgets hold in one run of the script. *)
Record widgets : Type := mkWidgets {
  username_input : string;
  password_input : string;
  login_clicked : bool;
  menu_option : menu
}.

(** What one run shows. *)
Inductive page : Type :=
| LoginForm
| InvalidLogin
| Welcome (username role : string)
| DashboardPage
| LoggedOut.

(** One run of [main]: the value of [st.session_state.logged_in] before the
    run, the connection and the widgets of the run; the value after the run
    and the page shown.  [if role:] is false for [None] and for the empty
    string. *)
Definition main (logged_in : bool) (conn : option (list User.row))
  (w : widgets) : bool * page :=
  if negb logged_in then
    if login_clicked w then
      match validate_user conn (username_input w) (password_input w) with
      | Some (String c role) =>
          (true, Welcome (username_input w) (String c role))
      | _ => (false, InvalidLogin)
      end
    else (false, LoginForm)
  else
    match menu_option w with
    | MenuDashboard => (true, DashboardPage)
    | MenuLogout => (false, LoggedOut)
    end.

(** A session: the runs of the script one after the other from the state
    [logged_in]; the final state and the pages shown, in the order of the
    runs. *)
Fixpoint session (runs : list (option (list User.row) * widgets))
  (logged_in : bool) : bool * list page :=
  match runs with
  | [] => (logged_in, [])
  | (conn, w) :: runs' =>
      let (logged_in', shown) := main logged_in conn w in
      let (final, pages) := session runs' logged_in' in
      (final, shown :: pages)
  end.

(** A run in which the Login button was pressed with credentials that
    [validate_user] accepts with a role that is not empty. *)
Definition accepted (run : option (list User.row) * widgets) : Prop :=
  login_clicked (snd run) = true
  /\ exists c role,
       validate_user (fst run) (username_input (snd run))
                     (password_input (snd run))
       = Some (String c role).

End Login.

(** ** More sample data *)

(** Twelve products, each sold once. *)
Definition twelve_products : list Rec.row :=
  [sale (mkDate 2024 January 1) "A01" 10; sale (mkDate 2024 January 2) "A02" 120;
   sale (mkDate 2024 February 3) "A03" 30; sale (mkDate 2024 February 4) "A04" 50;
   sale (mkDate 2024 March 5) "A05" 20; sale (mkDate 2024 March 6) "A06" 60;
   sale (mkDate 2024 April 7) "A07" 40; sale (mkDate 2024 April 8) "A08" 80;
   sale (mkDate 2024 May 9) "A09" 70; sale (mkDate 2024 May 10) "A10" 90;
   sale (mkDate 2024 June 11) "A11" 110; sale (mkDate 2024 June 12) "A12" 100;
   expense (mkDate 2024 June 13) "Rent" (-300)].

(** A row with neither a readable amount nor a readable date. *)
Definition unreadable_rows : list Raw.row :=
  [row "not-a-date" "Broken" (Str "abc"); row "13/45/2024" "Blank" NaN].

(** A table [users] with two rows of the same name, a row with an empty
    role and a row without a role; the hash of the examples turns a password
    around. *)
Definition sample_hash (password : string) : string :=
  string_of_list_ascii (rev (list_ascii_of_string password)).

Definition sample_users : list User.row :=
  [User.mk "ada" (Some "terces"%string) (Some "admin"%string);
   User.mk "ada" (Some "rehto"%string) (Some "viewer"%string);
   User.mk "bob" (Some "drowssap"%string) (Some ""%string);
   User.mk "eve" (Some "nepo"%string) None].

(** * Properties *)

(** ** Comparisons and sums of amounts *)

Lemma Qgtb_true_iff (x y : Q) : Qgtb x y = true <-> y < x.
Proof.
  unfold Qgtb. rewrite (Qgt_alt x y).
  destruct (x ?= y); split; intro H; congruence.
Qed.

Lemma Qgtb_false_iff (x y : Q) : Qgtb x y = false <-> x <= y.
Proof.
  unfold Qgtb. rewrite (Qle_alt x y).
  destruct (x ?= y); split; intro H; congruence.
Qed.

Lemma Qltb_true_iff (x y : Q) : Qltb x y = true <-> x < y.
Proof.
  unfold Qltb. rewrite (Qlt_alt x y).
  destruct (x ?= y); split; intro H; congruence.
Qed.

Lemma Qltb_false_iff (x y : Q) : Qltb x y = false <-> y <= x.
Proof.
  unfold Qltb. rewrite (Qge_alt x y).
  destruct (x ?= y); split; intro H; congruence.
Qed.

Lemma classify_Sales (x : Q) : classify x = Sales <-> 0 < x.
Proof.
  unfold classify. rewrite <- Qgtb_true_iff.
  destruct (Qgtb x 0); split; intro H; congruence.
Qed.

Lemma classify_Expense (x : Q) : classify x = Expense <-> x <= 0.
Proof.
  unfold classify. rewrite <- Qgtb_false_iff.
  destruct (Qgtb x 0); split; intro H; congruence.
Qed.

(** ** Insertion sort meets what is asked of [sort_values] *)

Section InsertionSort.

Context {A : Type} (before : A -> A -> bool) (R : A -> A -> Prop).
Hypothesis before_true : forall x y, before x y = true -> R x y.
Hypothesis before_false : forall x y, before x y = false -> R y x.

Lemma insert_by_perm (x : A) (l : list A) :
  Permutation (insert_by before x l) (x :: l).
Proof.
  induction l as [|y l IH]; simpl.
  - apply Permutation_refl.
  - destruct (before x y).
    + apply Permutation_refl.
    + eapply Permutation_trans; [apply perm_skip, IH | apply perm_swap].
Qed.

Lemma insertion_sort_perm (l : list A) :
  Permutation (insertion_sort before l) l.
Proof.
  induction l as [|x l IH]; simpl.
  - constructor.
  - eapply Permutation_trans; [apply insert_by_perm | apply perm_skip, IH].
Qed.

Lemma insert_by_HdRel (a x : A) (l : list A) :
  HdRel R a l -> R a x -> HdRel R a (insert_by before x l).
Proof.
  intros Hl Hx. destruct l as [|y l]; simpl.
  - constructor. exact Hx.
  - destruct (before x y); constructor.
    + exact Hx.
    + inversion Hl; assumption.
Qed.

Lemma insert_by_sorted (x : A) (l : list A) :
  Sorted R l -> Sorted R (insert_by before x l).
Proof.
  induction 1 as [|y l Hs IH Hhd]; simpl.
  - repeat constructor.
  - destruct (before x y) eqn:E.
    + constructor; [constructor; assumption|].
      constructor. apply before_true, E.
    + constructor; [exact IH|].
      apply insert_by_HdRel; [exact Hhd | apply before_false, E].
Qed.

Lemma insertion_sort_sorted (l : list A) : Sorted R (insertion_sort before l).
Proof.
  induction l as [|x l IH]; simpl.
  - constructor.
  - apply insert_by_sorted, IH.
Qed.

End InsertionSort.

Lemma stable_by_month_sorts : sorts_by_month stable_by_month.
Proof.
  intro l. split.
  - apply insertion_sort_perm.
  - apply insertion_sort_sorted; unfold month_le; intros x y H.
    + apply Nat.leb_le, H.
    + apply Nat.leb_gt in H. lia.
Qed.

Lemma stable_by_amount_sorts : sorts_by_amount stable_by_amount.
Proof.
  intro l. split.
  - apply insertion_sort_perm.
  - apply insertion_sort_sorted; unfold amount_ge; intros x y H.
    + apply Qle_bool_iff, H.
    + destruct (Qle_bool (Product.Amount y) (Product.Amount x)) eqn:E;
        [discriminate|].
      apply Qlt_le_weak, Qnot_le_lt. intro C.
      apply Qle_bool_iff in C. congruence.
Qed.

(** ** [traverse] *)


Lemma traverse_Some {A B} (f : A -> option B) (l : list A) (bs : list B) :
  traverse f l = Some bs <-> Forall2 (fun a b => f a = Some b) l bs.
Proof.
  revert bs. induction l as [|a l IH]; intros bs; simpl.
  - split; intro H; [injection H as <-; constructor | inversion H; reflexivity].
  - split.
    + destruct (f a) as [b|] eqn:Ea; [|discriminate].
      destruct (traverse f l) as [bs'|]; [|discriminate].
      intro H; injection H as <-. constructor; [exact Ea | apply IH; reflexivity].
    + intro H; inversion H as [|a' b l' bs' Hab Hrest]; subst.
      rewrite Hab. apply IH in Hrest. rewrite Hrest. reflexivity.
Qed.

(** ** [analyze_data] *)

Section AnalyzeData.

Variable parse_number : string -> option Q.
Variable parse_date : string -> option date.
Variable sort_by_month : list Rec.row -> list Rec.row.

Local Abbreviation to_num := (to_numeric parse_number).
Local Abbreviation coerce := (coerce_amount parse_number).
Local Abbreviation kept := (dropna parse_number).
Local Abbreviation is_kept := (coercible parse_number).
Local Abbreviation enriched := (enrich parse_date).
Local Abbreviation analyze :=
  (analyze_data parse_number parse_date sort_by_month).

(** Coercing a coerced cell changes nothing. *)
Lemma to_numeric_numeric_cell (x : option Q) : to_num (numeric_cell x) = x.
Proof. destruct x; reflexivity. Qed.

Lemma dropna_app (l1 l2 : list Raw.row) :
  kept (l1 ++ l2) = kept l1 ++ kept l2.
Proof.
  induction l1 as [|r l1 IH]; simpl; [reflexivity|].
  destruct (to_num (Raw.Amount r)); simpl; congruence.
Qed.

(** The retained rows, whatever label they carry. *)
Lemma traverse_enrich_unlabelled (df : list Raw.row) :
  traverse enriched (kept (map coerce (map unlabelled df)))
  = traverse enriched (kept (map coerce df)).
Proof.
  induction df as [|r df IH]; simpl; [reflexivity|].
  rewrite !to_numeric_numeric_cell.
  destruct (to_num (Raw.Amount r)) as [q|]; simpl; [|exact IH].
  unfold enrich at 1 3; simpl.
  destruct (parse_date (Raw.Date r)); [|reflexivity].
  rewrite IH. reflexivity.
Qed.


(** When it succeeds, the retained rows are the coercible rows, each
    normalized, in the order of the input. *)
Lemma traverse_enrich_Some (df : list Raw.row) (rows : list Rec.row) :
  traverse enriched (kept (map coerce df)) = Some rows ->
  Forall2 (normalized_from parse_number parse_date) (filter is_kept df) rows.
Proof.
  rewrite traverse_Some. revert rows.
  induction df as [|r df IH]; intros rows; simpl.
  - intro H; inversion H; constructor.
  - rewrite to_numeric_numeric_cell. unfold coercible at 1.
    destruct (to_num (Raw.Amount r)) as [q|] eqn:Eq; [|apply IH].
    intro H; inversion H as [|a b l bs Hab Hrest]; subst.
    constructor; [|apply IH, Hrest].
    unfold enrich in Hab; simpl in Hab.
    destruct (parse_date (Raw.Date r)) as [d|] eqn:Ed; [|discriminate].
    injection Hab as <-. unfold normalized_from; simpl. auto.
Qed.

Lemma analyze_data_Some (df : list Raw.row) (out : list Rec.row) :
  snd (analyze df) = Some out ->
  exists rows,
    traverse enriched (kept (map coerce df)) = Some rows
    /\ out = sort_by_month rows.
Proof.
  unfold analyze_data; simpl.
  destruct (traverse enriched _) as [rows|]; [|discriminate].
  intro H; injection H as <-. exists rows. auto.
Qed.

Hypothesis sort_by_month_sorts : sorts_by_month sort_by_month.

(** C1.  Every row [analyze_data] returns has type Sales exactly when its
    amount is greater than 0 and type Expense exactly when its amount is at
    most 0 (so a zero amount is an Expense); and the result does not depend
    on the [Type] labels of the input: two tables that differ only in their
    labels are normalized to the same table. *)
Theorem type_follows_amount_sign (df : list Raw.row) (out : list Rec.row) :
  snd (analyze df) = Some out ->
  (forall x, In x out ->
     (Rec.Type_ x = Sales <-> 0 < Rec.Amount x)
     /\ (Rec.Type_ x = Expense <-> Rec.Amount x <= 0))
  /\ (forall df', map unlabelled df' = map unlabelled df ->
        snd (analyze df') = Some out).
Proof.
  intro Hout. split.
  - intros x Hx.
    destruct (analyze_data_Some df out Hout) as [rows [Hrows ->]].
    apply (Permutation_in x (proj1 (sort_by_month_sorts rows))) in Hx.
    apply traverse_enrich_Some in Hrows.
    assert (Hty : Rec.Type_ x = classify (Rec.Amount x)).
    { clear - Hrows Hx. induction Hrows as [|r y l l' Hn _ IH]; [destruct Hx|].
      destruct Hx as [<-|Hx]; [apply Hn | apply IH, Hx]. }
    rewrite Hty. split; [apply classify_Sales | apply classify_Expense].
  - intros df' Hsame. rewrite <- Hout.
    unfold analyze_data; simpl.
    rewrite <- (traverse_enrich_unlabelled df'), Hsame,
      (traverse_enrich_unlabelled df). reflexivity.
Qed.


(** C9, as the code has it.  [analyze_data] writes the coerced amounts into
    the [Amount] column of the table it was given (a cell that cannot be
    coerced becomes NaN), whether or not it then fails; the rows of that
    table, their order and their [Date], [Description] and [Type] cells stay
    as they were, and a table whose amounts are numbers or NaN already is
    left unchanged. *)
Theorem argument_amount_overwritten (df : list Raw.row) :
  let df' := fst (analyze df) in
  df' = map coerce df
  /\ List.length df' = List.length df
  /\ Forall2 (fun r r' =>
                Raw.Date r' = Raw.Date r
                /\ Raw.Description r' = Raw.Description r
                /\ Raw.Type_ r' = Raw.Type_ r
                /\ Raw.Amount r' = numeric_cell (to_num (Raw.Amount r)))
             df df'
  /\ ((forall r, In r df -> forall s, Raw.Amount r <> Str s) -> df' = df).
Proof.
  simpl. split; [reflexivity|]. split; [apply length_map|]. split.
  - induction df as [|r l IH]; simpl; constructor; [|exact IH].
    simpl. auto.
  - intro Hnum. induction df as [|r l IH]; simpl; [reflexivity|].
    f_equal.
    + destruct r as [d desc a t]. unfold coerce_amount; simpl.
      assert (Ha := Hnum _ (or_introl eq_refl)). simpl in Ha.
      destruct a as [s|q|]; simpl; [destruct (Ha s eq_refl) | reflexivity ..].
    + apply IH. intros r' Hr'. apply Hnum. now right.
Qed.

End AnalyzeData.

(** ** [analyze_data], the dates read as a column *)

Lemma dated_stable_by_month_sorts : Dated.sorts_by_month Dated.stable_by_month.
Proof.
  intro l. split.
  - apply insertion_sort_perm.
  - apply insertion_sort_sorted; unfold Dated.month_le; intros x y H.
    + apply Nat.leb_le, H.
    + apply Nat.leb_gt in H. lia.
Qed.

Lemma traverse_length {A B} (f : A -> option B) (l : list A) (bs : list B) :
  traverse f l = Some bs -> List.length bs = List.length l.
Proof.
  intro H. apply traverse_Some in H. symmetry. exact (Forall2_length H).
Qed.

Lemma sample_to_datetime_keeps_length : Dated.keeps_length sample_to_datetime.
Proof. intros column dates H. exact (traverse_length _ _ _ H). Qed.

Section DatedColumn.

Variable parse_number : string -> option Q.
Variable to_datetime : list string -> option (list (option date)).
Variable sort_by_month : list Dated.row -> list Dated.row.

Local Abbreviation retained :=
  (fun df => dropna parse_number (map (coerce_amount parse_number) df)).

(** The column handed to [pd.to_datetime] holds the dates of the rows with a
    coercible amount, and no other. *)
Lemma retained_dates (df : list Raw.row) :
  map (fun rq => Raw.Date (fst rq))
      (dropna parse_number (map (coerce_amount parse_number) df))
  = map Raw.Date (filter (coercible parse_number) df).
Proof.
  induction df as [|r df IH]; simpl; [reflexivity|].
  rewrite to_numeric_numeric_cell. unfold coercible at 1.
  destruct (to_numeric parse_number (Raw.Amount r)); simpl; [|exact IH].
  rewrite IH. reflexivity.
Qed.

Lemma retained_length (df : list Raw.row) :
  List.length (dropna parse_number (map (coerce_amount parse_number) df))
  = List.length (filter (coercible parse_number) df).
Proof.
  rewrite <- (length_map (fun rq => Raw.Date (fst rq))), retained_dates.
  apply length_map.
Qed.

(** Each retained row, with what [pd.to_datetime] made of its date. *)
Lemma retained_normalized (df : list Raw.row) (dates : list (option date)) :
  Forall2 (fun rd x => Dated.normalized_from parse_number (fst rd) (snd rd) x)
          (combine (filter (coercible parse_number) df) dates)
          (map (fun rd => Dated.enrich (fst rd) (snd rd))
               (combine (dropna parse_number
                           (map (coerce_amount parse_number) df))
                        dates)).
Proof.
  revert dates. induction df as [|r df IH]; intros dates; simpl; [constructor|].
  rewrite to_numeric_numeric_cell. unfold coercible at 1.
  destruct (to_numeric parse_number (Raw.Amount r)) as [q|] eqn:Eq; [|apply IH].
  destruct dates as [|d dates]; simpl; constructor; [|apply IH].
  unfold Dated.normalized_from; simpl. auto.
Qed.

Hypothesis to_datetime_keeps_length : Dated.keeps_length to_datetime.
Hypothesis sort_by_month_sorts : Dated.sorts_by_month sort_by_month.

(** C4, as the code has it.  A row whose amount cannot be coerced is left
    out and raises nothing, whatever its date is: the call returns what it
    returns without that row.  The dates of the rows with a coercible amount
    are handed to [pd.to_datetime] as one column; the call fails exactly when
    [pd.to_datetime] raises on that column, and no row is dropped for its
    date.  When it does not raise, the table returned holds exactly the rows
    with a coercible amount, each with its description, its coerced amount,
    the type of that amount and what [pd.to_datetime] made of its date, in
    month order; a date read as NaT leaves its row in the table, without a
    month. *)
Theorem amount_tolerated_date_column_fatal (df : list Raw.row) :
  (snd (Dated.analyze_data parse_number to_datetime sort_by_month df) = None
   <-> to_datetime (map Raw.Date (filter (coercible parse_number) df)) = None)
  /\ (forall dates,
        to_datetime (map Raw.Date (filter (coercible parse_number) df))
        = Some dates ->
        exists rows out,
          snd (Dated.analyze_data parse_number to_datetime sort_by_month df)
          = Some out
          /\ Forall2 (fun rd x =>
                        Dated.normalized_from parse_number (fst rd) (snd rd) x)
                     (combine (filter (coercible parse_number) df) dates) rows
          /\ List.length rows
             = List.length (filter (coercible parse_number) df)
          /\ (forall x, In x rows ->
                Dated.Date x = None -> Dated.Month x = None)
          /\ Permutation out rows
          /\ Sorted Dated.month_le out)
  /\ (forall l1 r l2, df = l1 ++ r :: l2 -> coercible parse_number r = false ->
        snd (Dated.analyze_data parse_number to_datetime sort_by_month df)
        = snd (Dated.analyze_data parse_number to_datetime sort_by_month
                 (l1 ++ l2))).
Proof.
  split; [|split].
  - unfold Dated.analyze_data; simpl. rewrite retained_dates.
    destruct (to_datetime _); split; intro H; congruence.
  - intros dates Hdates.
    exists (map (fun rd => Dated.enrich (fst rd) (snd rd))
                (combine (retained df) dates)).
    eexists. split; [|split; [|split; [|split]]].
    + unfold Dated.analyze_data; simpl. rewrite retained_dates, Hdates.
      reflexivity.
    + apply retained_normalized.
    + rewrite length_map, length_combine, retained_length.
      apply to_datetime_keeps_length in Hdates.
      rewrite length_map in Hdates. lia.
    + intros x Hx Hnat. apply in_map_iff in Hx.
      destruct Hx as [[rq d] [<- _]]. simpl in *. subst d. reflexivity.
    + apply sort_by_month_sorts.
  - intros l1 r l2 -> Hr. unfold Dated.analyze_data; simpl.
    rewrite !map_app, !dropna_app. simpl.
    rewrite to_numeric_numeric_cell. unfold coercible in Hr.
    destruct (to_numeric parse_number (Raw.Amount r)); [discriminate | reflexivity].
Qed.

End DatedColumn.

(** ** Months and [unique] *)

Lemma month_code_inj (a b : month) : month_code a = month_code b -> a = b.
Proof. destruct a, b; simpl; intro H; try reflexivity; discriminate. Qed.

Lemma month_eqb_eq (a b : month) : month_eqb a b = true <-> a = b.
Proof.
  unfold month_eqb. rewrite Nat.eqb_eq. split.
  - apply month_code_inj.
  - intros ->. reflexivity.
Qed.

Lemma month_eqb_refl (a : month) : month_eqb a a = true.
Proof. apply month_eqb_eq. reflexivity. Qed.

Lemma ttype_eqb_eq (a b : ttype) : ttype_eqb a b = true <-> a = b.
Proof. destruct a, b; simpl; split; intro H; congruence. Qed.

Lemma in_month_order (m : month) : In m month_order.
Proof. destruct m; simpl; tauto. Qed.

Lemma month_order_sorted : StronglySorted month_lt month_order.
Proof.
  unfold month_order, month_lt.
  repeat (constructor; [|repeat constructor; simpl; lia]). constructor.
Qed.

Lemma StronglySorted_filter {A} (R : A -> A -> Prop) (p : A -> bool) (l : list A) :
  StronglySorted R l -> StronglySorted R (filter p l).
Proof.
  induction 1 as [|a l Hs IH Hall]; simpl; [constructor|].
  destruct (p a); [|exact IH].
  constructor; [exact IH|].
  rewrite Forall_forall in *. intros x Hx. apply filter_In in Hx. apply Hall, Hx.
Qed.

Lemma StronglySorted_month_lt_NoDup (l : list month) :
  StronglySorted month_lt l -> NoDup l.
Proof.
  induction 1 as [|a l Hs IH Hall]; constructor; [|exact IH].
  intro Hin. rewrite Forall_forall in Hall.
  specialize (Hall a Hin). unfold month_lt in Hall. lia.
Qed.

Lemma filter_idem {A} (p : A -> bool) (l : list A) :
  filter p (filter p l) = filter p l.
Proof.
  induction l as [|a l IH]; simpl; [reflexivity|].
  destruct (p a) eqn:E; simpl; [rewrite E|]; congruence.
Qed.

Lemma filter_all {A} (p : A -> bool) (l : list A) :
  (forall x, In x l -> p x = true) -> filter p l = l.
Proof.
  induction l as [|a l IH]; simpl; intro H; [reflexivity|].
  rewrite (H a (or_introl eq_refl)). f_equal. apply IH. auto.
Qed.

Lemma filter_none {A} (p : A -> bool) (l : list A) :
  (forall x, In x l -> p x = false) -> filter p l = [].
Proof.
  induction l as [|a l IH]; simpl; intro H; [reflexivity|].
  rewrite (H a (or_introl eq_refl)). apply IH. auto.
Qed.

(** A run of one month in front of a list does not change which other
    months [unique] finds behind it. *)
Lemma unique_skip_run (m : month) (n : nat) (rest : list month) :
  filter (fun x => negb (month_eqb x m)) (unique (repeat m n ++ rest))
  = filter (fun x => negb (month_eqb x m)) (unique rest).
Proof.
  induction n as [|n IH]; simpl; [reflexivity|].
  rewrite month_eqb_refl; simpl. rewrite filter_idem. exact IH.
Qed.

(** [unique] of runs of distinct months keeps the months with a run. *)
Lemma unique_runs (f : month -> nat) (M : list month) :
  NoDup M ->
  unique (flat_map (fun m => repeat m (f m)) M)
  = filter (fun m => negb (Nat.eqb (f m) 0)) M.
Proof.
  induction 1 as [|m M Hm Hnd IH]; simpl; [reflexivity|].
  destruct (f m) as [|n] eqn:E; simpl; [exact IH|].
  f_equal. rewrite unique_skip_run, IH.
  apply filter_all. intros x Hx. apply filter_In in Hx.
  destruct (month_eqb x m) eqn:Ex; [|reflexivity].
  apply month_eqb_eq in Ex. subst x. destruct Hm. apply Hx.
Qed.

Lemma fst_filter_list_prod {B} (P : month * B -> bool) (M : list month)
  (T : list B) :
  map fst (filter P (list_prod M T))
  = flat_map
      (fun m => repeat m (List.length (filter (fun t => P (m, t)) T))) M.
Proof.
  induction M as [|m M IH]; simpl; [reflexivity|].
  rewrite filter_app, map_app, IH. f_equal.
  clear IH. induction T as [|t T IHT]; simpl; [reflexivity|].
  destruct (P (m, t)); simpl; congruence.
Qed.

(** ** [generate_insights]: the monthly summary and the reviews *)

Section Insights.

Variable sort_by_amount : list Product.row -> list Product.row.
Variable observed : bool.

Local Abbreviation keys := (group_keys observed).
Local Abbreviation summary := (groupby_month_type observed).
Local Abbreviation insights := (generate_insights sort_by_amount observed).

Lemma in_group_split (r : Rec.row) (m : month) :
  month_eqb (Rec.Month r) m = in_group m Expense r || in_group m Sales r.
Proof.
  unfold in_group.
  destruct (month_eqb (Rec.Month r) m), (Rec.Type_ r); reflexivity.
Qed.

Lemma existsb_month_split (df : list Rec.row) (m : month) :
  existsb (fun r => month_eqb (Rec.Month r) m) df
  = existsb (in_group m Expense) df || existsb (in_group m Sales) df.
Proof.
  induction df as [|r df IH]; simpl; [reflexivity|].
  rewrite IH, in_group_split.
  destruct (in_group m Expense r), (in_group m Sales r),
    (existsb (in_group m Expense) df), (existsb (in_group m Sales) df);
    reflexivity.
Qed.

Lemma types_present_nil (df : list Rec.row) :
  filter (fun t => existsb (is_type t) df) type_order = [] -> df = [].
Proof.
  destruct df as [|r df]; [reflexivity|].
  unfold type_order, is_type; simpl.
  destruct (Rec.Type_ r); simpl.
  - destruct (existsb _ df); discriminate.
  - discriminate.
Qed.

(** The months of the reviews, for either setting of [observed]. *)
Lemma review_months (df : list Rec.row) :
  map Review.Month (monthly_reviews (insights df))
  = if observed then months_present df
    else match df with [] => [] | _ :: _ => month_order end.
Proof.
  assert (Hnd : NoDup month_order)
    by (apply StronglySorted_month_lt_NoDup, month_order_sorted).
  unfold generate_insights; simpl.
  rewrite map_map; simpl. rewrite map_id.
  unfold groupby_month_type. rewrite map_map; simpl.
  unfold group_keys. destruct observed.
  - rewrite fst_filter_list_prod, (unique_runs _ _ Hnd).
    unfold months_present. apply filter_ext. intro m.
    rewrite existsb_month_split. unfold type_order; simpl.
    destruct (existsb (in_group m Expense) df),
             (existsb (in_group m Sales) df); reflexivity.
  - rewrite <- (filter_true (list_prod month_order _)).
    rewrite (fst_filter_list_prod (fun _ => true)), (unique_runs _ _ Hnd).
    rewrite filter_true.
    destruct (filter (fun t => existsb (is_type t) df) type_order) eqn:E.
    + apply types_present_nil in E. subst df. reflexivity.
    + destruct df as [|r df]; [discriminate|].
      apply filter_all. reflexivity.
Qed.

Lemma months_present_sorted (df : list Rec.row) :
  StronglySorted month_lt (months_present df).
Proof. apply StronglySorted_filter, month_order_sorted. Qed.

Lemma months_present_In (df : list Rec.row) (m : month) :
  In m (months_present df) <-> exists r, In r df /\ Rec.Month r = m.
Proof.
  unfold months_present. rewrite filter_In, existsb_exists. split.
  - intros [_ [r [Hr Hm]]]. exists r. split; [exact Hr|].
    apply month_eqb_eq, Hm.
  - intros [r [Hr Hm]]. split; [apply in_month_order|].
    exists r. split; [exact Hr|]. apply month_eqb_eq, Hm.
Qed.

(** The keys of the summary are pairwise distinct. *)
Lemma NoDup_list_prod {A B} (M : list A) (T : list B) :
  NoDup M -> NoDup T -> NoDup (list_prod M T).
Proof.
  intros HM HT. induction HM as [|m M Hm HM IH]; simpl; [constructor|].
  apply NoDup_app.
  - clear - HT. induction HT as [|t T Ht HT IH]; simpl; constructor; [|exact IH].
    rewrite in_map_iff. intros [t' [Heq Hin]]. injection Heq as ->. tauto.
  - exact IH.
  - intros [a b] Ha Hb. apply in_map_iff in Ha. destruct Ha as [t [Heq _]].
    injection Heq as <- <-. apply in_prod_iff in Hb. tauto.
Qed.

Lemma type_order_NoDup : NoDup type_order.
Proof.
  unfold type_order. repeat constructor; simpl; intuition discriminate.
Qed.

Lemma keys_NoDup (df : list Rec.row) : NoDup (keys df).
Proof.
  assert (Hnd : NoDup month_order)
    by (apply StronglySorted_month_lt_NoDup, month_order_sorted).
  unfold group_keys. destruct observed.
  - apply NoDup_filter, NoDup_list_prod; [exact Hnd | apply type_order_NoDup].
  - apply NoDup_list_prod; [exact Hnd|].
    apply NoDup_filter, type_order_NoDup.
Qed.

Lemma key_eqb_eq (m : month) (t : ttype) (k : month * ttype) :
  key_eqb m t k = true <-> k = (m, t).
Proof.
  destruct k as [m' t']. unfold key_eqb; simpl.
  rewrite andb_true_iff, month_eqb_eq, ttype_eqb_eq.
  split; [intros [-> ->]; reflexivity | intro H; injection H; auto].
Qed.

Lemma filter_key (m : month) (t : ttype) (l : list (month * ttype)) :
  NoDup l ->
  filter (key_eqb m t) l = if existsb (key_eqb m t) l then [(m, t)] else [].
Proof.
  induction 1 as [|k l Hk Hnd IH]; simpl; [reflexivity|].
  destruct (key_eqb m t k) eqn:E; simpl; [|exact IH].
  apply key_eqb_eq in E. subst k. f_equal.
  apply filter_none. intros x Hx.
  destruct (key_eqb m t x) eqn:Ex; [|reflexivity].
  apply key_eqb_eq in Ex. subst x. contradiction.
Qed.

(** A group that is not a key of the summary has no rows. *)
Lemma absent_key_no_rows (df : list Rec.row) (m : month) (t : ttype) :
  existsb (key_eqb m t) (keys df) = false -> filter (in_group m t) df = [].
Proof.
  intro Habs. apply filter_none. intros r Hr.
  destruct (in_group m t r) eqn:E; [|reflexivity].
  assert (Hin : In (m, t) (keys df)).
  { assert (Ht : In t type_order) by (destruct t; simpl; tauto).
    unfold group_keys. destruct observed.
    - apply filter_In. split.
      + apply in_prod; [apply in_month_order | exact Ht].
      + simpl. apply existsb_exists. exists r. auto.
    - apply in_prod; [apply in_month_order|].
      apply filter_In. split; [exact Ht|].
      apply existsb_exists. exists r. split; [exact Hr|].
      unfold in_group in E. apply andb_true_iff in E. apply E. }
  assert (existsb (key_eqb m t) (keys df) = true); [|congruence].
  apply existsb_exists. exists (m, t). split; [exact Hin|].
  apply key_eqb_eq. reflexivity.
Qed.

(** What lines 109 and 110 read back from the summary. *)
Lemma summary_amount_cases (df : list Rec.row) (m : month) (t : ttype) :
  summary_amount (summary df) m t
  = if existsb (key_eqb m t) (keys df) then group_sum df m t + 0 else 0.
Proof.
  unfold summary_amount, groupby_month_type.
  rewrite filter_map_swap, map_map; simpl.
  change (fun a : month * ttype =>
            month_eqb (fst a) m && ttype_eqb (snd a) t) with (key_eqb m t).
  rewrite (filter_key m t _ (keys_NoDup df)).
  destruct (existsb (key_eqb m t) (keys df)); reflexivity.
Qed.

(** The amount a review reports for a month and a type is the sum of the
    rows of that month and type. *)
Lemma summary_amount_group_sum (df : list Rec.row) (m : month) (t : ttype) :
  summary_amount (summary df) m t == group_sum df m t.
Proof.
  rewrite summary_amount_cases.
  destruct (existsb (key_eqb m t) (keys df)) eqn:E.
  - apply Qplus_0_r.
  - unfold group_sum. rewrite (absent_key_no_rows df m t E). reflexivity.
Qed.

(** A month without rows of a type reports exactly 0 for that type. *)
Lemma summary_amount_no_rows (df : list Rec.row) (m : month) (t : ttype) :
  filter (in_group m t) df = [] -> summary_amount (summary df) m t = 0.
Proof.
  intro Hnone. rewrite summary_amount_cases. unfold group_sum.
  rewrite Hnone. destruct (existsb _ _); reflexivity.
Qed.

Lemma in_monthly_reviews (df : list Rec.row) (review : Review.t) :
  In review (monthly_reviews (insights df)) ->
  review = review_of (summary df) (Review.Month review).
Proof.
  unfold generate_insights; simpl. rewrite in_map_iff.
  intros [m [<- _]]. reflexivity.
Qed.

Lemma existsb_Permutation {A} (p : A -> bool) (l l' : list A) :
  Permutation l l' -> existsb p l = existsb p l'.
Proof.
  intro HP. destruct (existsb p l) eqn:E; symmetry.
  - apply existsb_exists in E. destruct E as [x [Hx Hp]].
    apply existsb_exists. exists x. split; [|exact Hp].
    apply (Permutation_in x HP Hx).
  - destruct (existsb p l') eqn:E'; [|reflexivity].
    apply existsb_exists in E'. destruct E' as [x [Hx Hp]].
    assert (existsb p l = true); [|congruence].
    apply existsb_exists. exists x. split; [|exact Hp].
    apply (Permutation_in x (Permutation_sym HP) Hx).
Qed.

(** C2.  [total_sales] is the sum of the amounts typed Sales,
    [total_expenses] the sum of the amounts typed Expense, and [net_profit]
    is their sum; every monthly review has a profit that is its sales plus
    its expenses, where its sales and expenses are the sums of the month's
    Sales rows and Expense rows. *)
Theorem totals_and_profit_add_up (df : list Rec.row) :
  let bundle := insights df in
  total_sales bundle = sum (map Rec.Amount (filter (is_type Sales) df))
  /\ total_expenses bundle = sum (map Rec.Amount (filter (is_type Expense) df))
  /\ net_profit bundle = total_sales bundle + total_expenses bundle
  /\ Forall (fun review =>
               Review.Profit review
               = Review.Sales review + Review.Expenses review
               /\ Review.Sales review
                  == group_sum df (Review.Month review) Sales
               /\ Review.Expenses review
                  == group_sum df (Review.Month review) Expense)
            (monthly_reviews bundle).
Proof.
  simpl. repeat split; try reflexivity.
  apply Forall_forall. intros review Hin.
  apply in_map_iff in Hin. destruct Hin as [m [<- _]]. simpl.
  split; [reflexivity|].
  split; apply summary_amount_group_sum.
Qed.

(** C3, as the code has it.  The reviews list each month at most once, in
    calendar order from January to December, whatever the order of the
    rows, and every month of the data has its review.  Whether a month
    without data has one is pandas' choice: with [observed] the months of the
    reviews are exactly the months of the data; without it (the default
    before pandas 3.0) a table that is not empty gets a review for each of
    the twelve months.  In either case a review reports 0 sales for a month
    without Sales rows and 0 expenses for a month without Expense rows. *)
Theorem reviews_follow_the_calendar (df : list Rec.row) :
  let reviews := monthly_reviews (insights df) in
  let months := map Review.Month reviews in
  StronglySorted month_lt months
  /\ (forall r, In r df -> In (Rec.Month r) months)
  /\ (forall df', Permutation df df' ->
        map Review.Month (monthly_reviews (insights df')) = months)
  /\ (observed = true -> months = months_present df)
  /\ (observed = false -> df <> [] -> months = month_order)
  /\ (forall review, In review reviews ->
        (filter (in_group (Review.Month review) Sales) df = [] ->
         Review.Sales review = 0)
        /\ (filter (in_group (Review.Month review) Expense) df = [] ->
            Review.Expenses review = 0)).
Proof.
  intros reviews months. subst months reviews.
  rewrite (review_months df).
  split; [|split; [|split; [|split; [|split]]]].
  - destruct observed; [apply months_present_sorted|].
    destruct df; [constructor | apply month_order_sorted].
  - intros r Hr. destruct observed.
    + apply months_present_In. exists r. auto.
    + destruct df; [destruct Hr | apply in_month_order].
  - intros df' HP. rewrite (review_months df'). destruct observed.
    + unfold months_present. apply filter_ext. intro m.
      symmetry. apply existsb_Permutation, HP.
    + destruct df as [|r df], df' as [|r' df']; try reflexivity.
      * apply Permutation_nil in HP. discriminate.
      * apply Permutation_sym, Permutation_nil in HP. discriminate.
  - intros ->. reflexivity.
  - intros -> Hne. destruct df; [contradiction | reflexivity].
  - intros review Hin. rewrite (in_monthly_reviews df review Hin). simpl.
    split; apply summary_amount_no_rows.
Qed.

Lemma review_messages_differ :
  review_positive <> review_negative
  /\ review_positive <> review_balanced
  /\ review_negative <> review_balanced.
Proof. unfold review_positive, review_negative, review_balanced.
  repeat split; discriminate. Qed.

Lemma review_text_sign (p : Q) :
  (review_text p = review_positive <-> 0 < p)
  /\ (review_text p = review_negative <-> p < 0)
  /\ (review_text p = review_balanced <-> p == 0).
Proof.
  destruct review_messages_differ as [Hpn [Hpb Hnb]].
  unfold review_text.
  destruct (Qgtb p 0) eqn:Eg.
  - apply Qgtb_true_iff in Eg.
    repeat split; intro H; try congruence; try exact Eg; exfalso.
    + apply (Qlt_irrefl 0). apply (Qlt_trans _ p); assumption.
    + rewrite H in Eg. apply (Qlt_irrefl 0), Eg.
  - apply Qgtb_false_iff in Eg. destruct (Qltb p 0) eqn:El.
    + apply Qltb_true_iff in El.
      repeat split; intro H; try congruence; try exact El; exfalso.
      * apply (Qlt_irrefl 0). apply (Qlt_le_trans _ p); assumption.
      * rewrite H in El. apply (Qlt_irrefl 0), El.
    + apply Qltb_false_iff in El.
      repeat split; intro H; try congruence; try reflexivity.
      * exfalso. apply (Qlt_irrefl 0). apply (Qlt_le_trans _ p); assumption.
      * exfalso. apply (Qlt_irrefl 0). apply (Qle_lt_trans _ p); assumption.
      * apply Qle_antisym; assumption.
Qed.

(** C6.  The narration of every monthly review is decided by its profit
    alone, by the test [profit > 0], then [profit < 0], then the rest: the
    positive message exactly when the profit is above 0, the warning exactly
    when it is below 0, the balanced message exactly when it is 0; two
    profits of the same sign get the same narration. *)
Theorem narration_follows_profit_sign (df : list Rec.row) :
  Forall (fun review =>
            let profit := Review.Profit review in
            Review.Review review
            = (if Qgtb profit 0 then review_positive
               else if Qltb profit 0 then review_negative
               else review_balanced)
            /\ (Review.Review review = review_positive <-> 0 < profit)
            /\ (Review.Review review = review_negative <-> profit < 0)
            /\ (Review.Review review = review_balanced <-> profit == 0))
         (monthly_reviews (insights df))
  /\ (forall p q : Q, (p ?= 0) = (q ?= 0) -> review_text p = review_text q).
Proof.
  split.
  - apply Forall_forall. intros review Hin.
    rewrite (in_monthly_reviews df review Hin). simpl.
    split; [reflexivity | apply review_text_sign].
  - intros p q H. unfold review_text, Qgtb, Qltb. rewrite H. reflexivity.
Qed.

Hypothesis sort_by_amount_sorts : sorts_by_amount sort_by_amount.

(** C7.  On an empty table [generate_insights] returns a bundle (the function
    is total: nothing is raised) whose three totals are 0 and whose monthly
    summary, monthly reviews, product ranking, top and bottom lists are
    empty. *)
Theorem empty_table_gives_empty_bundle :
  let bundle := generate_insights sort_by_amount observed [] in
  total_sales bundle = 0
  /\ total_expenses bundle = 0
  /\ net_profit bundle = 0
  /\ monthly_summary bundle = []
  /\ monthly_reviews bundle = []
  /\ product_performance bundle = []
  /\ top_products bundle = []
  /\ underperforming_products bundle = [].
Proof.
  assert (Hs : sort_by_amount [] = []).
  { apply Permutation_nil, Permutation_sym, sort_by_amount_sorts. }
  unfold generate_insights, groupby_description, groupby_month_type, group_keys.
  simpl. rewrite Hs. destruct observed; repeat split; reflexivity.
Qed.

End Insights.

(** ** [generate_insights]: the product ranking *)

Lemma description_lt_trans (a b c : string) :
  description_lt a b -> description_lt b c -> description_lt a c.
Proof.
  unfold description_lt. intros Hab Hbc.
  apply String_as_OT.cmp_lt. apply String_as_OT.cmp_lt in Hab, Hbc.
  exact (String_as_OT.lt_trans _ _ _ Hab Hbc).
Qed.

Lemma insert_key_In (d x : string) (l : list string) :
  In x (insert_key d l) <-> x = d \/ In x l.
Proof.
  induction l as [|y l IH]; simpl; [intuition|].
  destruct (String.compare d y) eqn:E; simpl.
  - apply String.compare_eq_iff in E. subst y. intuition.
  - intuition.
  - rewrite IH. intuition.
Qed.

Lemma sorted_keys_In (x : string) (l : list string) :
  In x (sorted_keys l) <-> In x l.
Proof.
  induction l as [|d l IH]; simpl; [tauto|].
  rewrite insert_key_In, IH. intuition.
Qed.

Lemma insert_key_sorted (d : string) (l : list string) :
  StronglySorted description_lt l ->
  StronglySorted description_lt (insert_key d l).
Proof.
  induction 1 as [|y l Hs IH Hall]; simpl; [repeat constructor|].
  destruct (String.compare d y) eqn:E.
  - constructor; assumption.
  - constructor; [constructor; assumption|].
    constructor; [exact E|].
    rewrite Forall_forall in *. intros z Hz.
    apply (description_lt_trans d y z E), Hall, Hz.
  - constructor; [exact IH|].
    rewrite Forall_forall in *. intros z Hz.
    apply insert_key_In in Hz. destruct Hz as [->|Hz]; [|apply Hall, Hz].
    unfold description_lt. rewrite String.compare_antisym, E. reflexivity.
Qed.

Lemma sorted_keys_sorted (l : list string) :
  StronglySorted description_lt (sorted_keys l).
Proof.
  induction l as [|d l IH]; simpl; [constructor|].
  apply insert_key_sorted, IH.
Qed.

Lemma StronglySorted_app_inv {A} (R : A -> A -> Prop) (l1 l2 : list A) :
  StronglySorted R (l1 ++ l2) -> StronglySorted R l1 /\ StronglySorted R l2.
Proof.
  induction l1 as [|a l1 IH]; simpl; intro H.
  - split; [constructor | exact H].
  - inversion H as [|a' l' Hs Hall]; subst.
    destruct (IH Hs) as [H1 H2]. split; [|exact H2].
    constructor; [exact H1|].
    apply Forall_app in Hall. apply Hall.
Qed.

Lemma StronglySorted_firstn {A} (R : A -> A -> Prop) (n : nat) (l : list A) :
  StronglySorted R l -> StronglySorted R (firstn n l).
Proof.
  intro H. rewrite <- (firstn_skipn n l) in H.
  apply (StronglySorted_app_inv R _ _ H).
Qed.

Lemma StronglySorted_skipn {A} (R : A -> A -> Prop) (n : nat) (l : list A) :
  StronglySorted R l -> StronglySorted R (skipn n l).
Proof.
  intro H. rewrite <- (firstn_skipn n l) in H.
  apply (StronglySorted_app_inv R _ _ H).
Qed.

Lemma amount_ge_trans (a b c : Product.row) :
  amount_ge a b -> amount_ge b c -> amount_ge a c.
Proof. unfold amount_ge. intros Hab Hbc. apply (Qle_trans _ _ _ Hbc Hab). Qed.

(** The first five and the last five of a list of fewer than ten share its
    middle: the end of the one is the start of the other. *)
Lemma head_tail_overlap {A} (l : list A) :
  (List.length l < 10)%nat ->
  skipn (List.length l - 5) (head 5 l) = firstn (10 - List.length l) (tail 5 l)
  /\ ((0 < List.length l)%nat -> skipn (List.length l - 5) (head 5 l) <> []).
Proof.
  intro Hlt. unfold head, tail. split.
  - rewrite skipn_firstn_comm.
    destruct (Nat.le_gt_cases (List.length l) 5) as [Hle|Hgt].
    + replace (List.length l - 5)%nat with 0%nat by lia.
      change (skipn 0 l) with l.
      rewrite (firstn_all2 (n := 5 - 0) l) by lia.
      rewrite (firstn_all2 (n := 10 - List.length l) l) by lia.
      reflexivity.
    + f_equal. lia.
  - intros Hpos Hnil. apply (f_equal (@List.length A)) in Hnil.
    rewrite length_skipn, length_firstn in Hnil.
    change (List.length (@nil A)) with 0%nat in Hnil. lia.
Qed.

Section Ranking.

Variable sort_by_amount : list Product.row -> list Product.row.
Variable observed : bool.
Hypothesis sort_by_amount_sorts : sorts_by_amount sort_by_amount.

(** C5, as the code has it.  The product ranking holds one row for each
    description of a Sales row, with the sum of the Sales amounts of that
    description (the groups come in ascending order of description), sorted
    by descending sum; which of two products with equal sums comes first is
    left to pandas' sort.  [top_products] is the first five rows and
    [underperforming_products] the last five rows of that one ranking, each
    sorted in turn; with five products or fewer both are the whole ranking,
    and with fewer than ten the last rows of the one are the first rows of
    the other. *)
Theorem ranking_sorted_and_sliced (df : list Rec.row) :
  let bundle := generate_insights sort_by_amount observed df in
  let groups := groupby_description (filter (is_type Sales) df) in
  let ranking := product_performance bundle in
  let n := List.length ranking in
  (StronglySorted description_lt (map Product.Description groups)
   /\ (forall d, In d (map Product.Description groups)
         <-> exists r, In r df /\ Rec.Type_ r = Sales /\ Rec.Description r = d)
   /\ Forall (fun g =>
                Product.Amount g
                = sum (map Rec.Amount
                         (filter (fun r => String.eqb (Rec.Description r)
                                                      (Product.Description g))
                                 (filter (is_type Sales) df))))
             groups)
  /\ Permutation ranking groups
  /\ StronglySorted amount_ge ranking
  /\ top_products bundle = firstn 5 ranking
  /\ underperforming_products bundle = skipn (n - 5) ranking
  /\ StronglySorted amount_ge (top_products bundle)
  /\ StronglySorted amount_ge (underperforming_products bundle)
  /\ ((n <= 5)%nat ->
      top_products bundle = ranking /\ underperforming_products bundle = ranking)
  /\ ((n < 10)%nat ->
      skipn (n - 5) (top_products bundle)
      = firstn (10 - n) (underperforming_products bundle)
      /\ ((0 < n)%nat -> skipn (n - 5) (top_products bundle) <> [])).
Proof.
  intros bundle groups ranking n.
  assert (Hperm : Permutation ranking groups) by apply sort_by_amount_sorts.
  assert (Hsorted : StronglySorted amount_ge ranking).
  { apply Sorted_StronglySorted; [|apply sort_by_amount_sorts].
    intros a b c. apply amount_ge_trans. }
  split; [split; [|split]|].
  - subst groups. unfold groupby_description. rewrite map_map; simpl.
    rewrite map_id. apply sorted_keys_sorted.
  - intro d. subst groups. unfold groupby_description.
    rewrite map_map; simpl. rewrite map_id, sorted_keys_In, in_map_iff.
    split.
    + intros [r [Hd Hr]]. apply filter_In in Hr. destruct Hr as [Hr Ht].
      exists r. repeat split; try assumption. apply ttype_eqb_eq, Ht.
    + intros [r [Hr [Ht Hd]]]. exists r. split; [exact Hd|].
      apply filter_In. split; [exact Hr|]. apply ttype_eqb_eq, Ht.
  - subst groups. unfold groupby_description.
    apply Forall_forall. intros g Hg. apply in_map_iff in Hg.
    destruct Hg as [d [<- _]]. reflexivity.
  - split; [exact Hperm|]. split; [exact Hsorted|].
    split; [reflexivity|]. split; [reflexivity|].
    split; [apply StronglySorted_firstn, Hsorted|].
    split; [apply StronglySorted_skipn, Hsorted|].
    split.
    + intro Hle. split.
      * apply firstn_all2. exact Hle.
      * change (skipn (n - 5) ranking = ranking).
        replace (n - 5)%nat with 0%nat by lia. reflexivity.
    + intro Hlt. apply (head_tail_overlap ranking Hlt).
Qed.

End Ranking.

(** ** The report *)

Lemma fold_left_append {A B} (f : A -> list B) (l : list A) (acc : list B) :
  fold_left (fun elements x => elements ++ f x) l acc = acc ++ flat_map f l.
Proof.
  revert acc. induction l as [|x l IH]; intro acc; simpl.
  - symmetry. apply app_nil_r.
  - rewrite IH, app_assoc. reflexivity.
Qed.

Lemma tables_monthly_elements (reviews : list Review.t) :
  Forall (fun data => List.length data = 3%nat)
         (tables (flat_map monthly_elements reviews)).
Proof.
  induction reviews as [|review reviews IH]; simpl; constructor.
  - reflexivity.
  - exact IH.
Qed.

(** The months of the reviews of a bundle are in calendar order. *)
Lemma review_months_sorted (sort_by_amount : list Product.row -> list Product.row)
  (observed : bool) (df : list Rec.row) :
  StronglySorted month_lt
    (map Review.Month
         (monthly_reviews (generate_insights sort_by_amount observed df))).
Proof.
  rewrite review_months. destruct observed.
  - apply months_present_sorted.
  - destruct df; [constructor | apply month_order_sorted].
Qed.

(** C8, as the code has it.  What follows the first page break of the report
    (the one behind the aggregate chart) is, for each monthly review in the
    order of the bundle, which is calendar order: a heading with the month, a
    table of three rows (Sales, Expenses, Profit), the chart of the month, a
    spacer, the narration, and a page break. *)
Theorem report_monthly_sections (today title : string)
  (business_logo business_name : option string) (insights : Insights) :
  let elements :=
    generate_pdf today title business_logo business_name insights in
  let reviews := monthly_reviews insights in
  after_page_break elements = flat_map monthly_elements reviews
  /\ (exists front,
        elements
        = front
          ++ [Image (Chart (generate_aggregate_chart reviews)) 400 250; PageBreak]
          ++ flat_map monthly_elements reviews
        /\ ~ In PageBreak front)
  /\ Forall (fun review =>
               monthly_elements review
               = [Paragraph ("Monthly Performance - "
                             ++ month_name (Review.Month review)) Heading2;
                  Table [[Text "Sales"; Money (Review.Sales review)];
                         [Text "Expenses"; Money (Qabs (Review.Expenses review))];
                         [Text "Profit"; Money (Review.Profit review)]]
                        [200; 200]%Z;
                  Image (Chart (MonthlyChart
                                  ("Performance for "
                                   ++ month_name (Review.Month review))
                                  ["Sales"; "Expenses"]%string
                                  [Review.Sales review;
                                   Qabs (Review.Expenses review)]))
                        400 250;
                  Spacer 1 12;
                  Paragraph ("**Summary**: " ++ Review.Review review) Normal;
                  PageBreak])
            reviews
  /\ Forall (fun data => List.length data = 3%nat)
            (tables (after_page_break elements))
  /\ (forall sort_by_amount observed df,
        insights = generate_insights sort_by_amount observed df ->
        StronglySorted month_lt (map Review.Month reviews)).
Proof.
  intros elements reviews.
  assert (Hafter : after_page_break elements = flat_map monthly_elements reviews).
  { subst elements reviews. unfold generate_pdf. rewrite fold_left_append.
    destruct business_logo; reflexivity. }
  split; [exact Hafter|]. split; [|split; [|split]].
  - subst elements reviews. unfold generate_pdf. rewrite fold_left_append.
    destruct business_logo as [file|]; simpl.
    + eexists [_; _; _; _; _; _; _; _; _]. split; [reflexivity|].
      simpl. intuition discriminate.
    + eexists [_; _; _; _; _; _; _; _]. split; [reflexivity|].
      simpl. intuition discriminate.
  - apply Forall_forall. intros review _. reflexivity.
  - rewrite Hafter. apply tables_monthly_elements.
  - intros sort_by_amount observed df ->. apply review_months_sorted.
Qed.

(** ** The pipeline on the sample data *)

Example scenario_widget :
  snd (analyze_data read_number read_date stable_by_month widget_rows)
  = Some widget_records
  /\ total_sales (generate_insights stable_by_amount true widget_records) = 100
  /\ total_expenses (generate_insights stable_by_amount true widget_records) = -40
  /\ net_profit (generate_insights stable_by_amount true widget_records) = 60
  /\ monthly_reviews (generate_insights stable_by_amount true widget_records)
     = [Review.mk January 100 (-40) 60 review_positive].
Proof. vm_compute. repeat split; reflexivity. Qed.

Example scenario_zero_amount :
  classify 0 = Expense
  /\ snd (analyze_data read_number read_date stable_by_month
            [row "2024-03-09" "Refund" (Num 0)])
     = Some [expense (mkDate 2024 March 9) "Refund" 0].
Proof. vm_compute. split; reflexivity. Qed.

(** C1 on the two sample files: the labels the dashboard wrote are not the
    types of the result. *)
Lemma type_follows_amount_sign_witness :
  sorts_by_month stable_by_month
  /\ snd (analyze_data read_number read_date stable_by_month
            (dashboard_table sales_file expenses_file))
     = Some files_records
  /\ (forall x, In x files_records ->
        (Rec.Type_ x = Sales <-> 0 < Rec.Amount x)
        /\ (Rec.Type_ x = Expense <-> Rec.Amount x <= 0))
  /\ (forall df',
        map unlabelled df'
        = map unlabelled (dashboard_table sales_file expenses_file) ->
        snd (analyze_data read_number read_date stable_by_month df')
        = Some files_records).
Proof.
  split; [exact stable_by_month_sorts|].
  split; [vm_compute; reflexivity|].
  apply (type_follows_amount_sign read_number read_date stable_by_month
           stable_by_month_sorts
           (dashboard_table sales_file expenses_file) files_records).
  vm_compute. reflexivity.
Defined.

Example mixed_rows_normalized :
  snd (analyze_data read_number read_date stable_by_month mixed_rows)
  = Some mixed_records.
Proof. vm_compute. reflexivity. Qed.

(** The rows of [blank_date_rows] and of [mixed_rows] with the dates read as
    a column: the row without a date is kept, without a month and behind the
    others. *)
Example blank_date_is_kept :
  snd (Dated.analyze_data read_number sample_to_datetime Dated.stable_by_month
         blank_date_rows)
  = Some blank_date_records
  /\ snd (Dated.analyze_data read_number sample_to_datetime
            Dated.stable_by_month mixed_rows)
     = Some mixed_dated_records.
Proof. vm_compute. split; reflexivity. Qed.

(** C4 on sample rows: the date "not-a-date" on a row with the amount "100"
    fails [bad_date_rows] as a whole; in [blank_date_rows] the row with the
    amount "abc" is left out, its date never read, and the three other rows
    are returned, the one without a date among them. *)
Lemma amount_tolerated_date_column_fatal_witness :
  Dated.keeps_length sample_to_datetime
  /\ Dated.sorts_by_month Dated.stable_by_month
  /\ snd (Dated.analyze_data read_number sample_to_datetime
            Dated.stable_by_month bad_date_rows)
     = None
  /\ exists rows out,
       snd (Dated.analyze_data read_number sample_to_datetime
              Dated.stable_by_month blank_date_rows)
       = Some out
       /\ Forall2 (fun rd x =>
                     Dated.normalized_from read_number (fst rd) (snd rd) x)
                  (combine (filter (coercible read_number) blank_date_rows)
                           [Some (mkDate 2024 March 2); None;
                            Some (mkDate 2024 January 20)])
                  rows
       /\ List.length rows
          = List.length (filter (coercible read_number) blank_date_rows)
       /\ (forall x, In x rows -> Dated.Date x = None -> Dated.Month x = None)
       /\ Permutation out rows
       /\ Sorted Dated.month_le out.
Proof.
  split; [exact sample_to_datetime_keeps_length|].
  split; [exact dated_stable_by_month_sorts|]. split.
  - apply (proj1 (amount_tolerated_date_column_fatal read_number
                    sample_to_datetime Dated.stable_by_month
                    sample_to_datetime_keeps_length
                    dated_stable_by_month_sorts bad_date_rows)).
    vm_compute. reflexivity.
  - apply (proj1 (proj2 (amount_tolerated_date_column_fatal read_number
                           sample_to_datetime Dated.stable_by_month
                           sample_to_datetime_keeps_length
                           dated_stable_by_month_sorts blank_date_rows))).
    vm_compute. reflexivity.
Defined.

(** C4 refuted: [pd.to_datetime] raises on "not-a-date", the date of a row
    of [mixed_rows], and [analyze_data] returns a table for [mixed_rows] all
    the same: the row was dropped for its amount before the dates were
    read. *)
Lemma dropped_row_date_not_fatal :
  ~ unparsed_date_is_fatal read_number sample_to_datetime Dated.stable_by_month
      mixed_rows.
Proof.
  intro H.
  specialize (H (row "not-a-date" "Broken" (Str "abc"))).
  assert (Hnone : snd (Dated.analyze_data read_number sample_to_datetime
                         Dated.stable_by_month mixed_rows) = None).
  { apply H; [simpl; tauto | vm_compute; reflexivity]. }
  vm_compute in Hnone. discriminate Hnone.
Qed.


(** C9 refuted: after the call the caller's [mixed_rows] holds the coerced
    amounts, NaN in place of "abc". *)
Lemma argument_is_overwritten :
  ~ argument_unchanged read_number read_date stable_by_month mixed_rows.
Proof.
  unfold argument_unchanged. vm_compute. intro H. discriminate H.
Qed.

(** C3 refuted: without [observed], the two January rows of the scenario
    give twelve reviews, February to December among them. *)
Lemma absent_months_are_reviewed :
  ~ reviews_only_present_months stable_by_amount false widget_records.
Proof.
  unfold reviews_only_present_months. vm_compute. intro H. discriminate H.
Qed.

Example twelve_reviews_without_observed :
  map Review.Month
      (monthly_reviews (generate_insights stable_by_amount false widget_records))
  = month_order
  /\ months_present widget_records = [January].
Proof. vm_compute. split; reflexivity. Qed.

(** C5 refuted: three hundred products with equal sums do not come out of
    [sort_values] in the order of the groups.  pandas' default sort is
    numpy's quicksort, which exchanges items of equal keys as it
    partitions. *)
Lemma tied_ranking_not_in_group_order :
  ~ ranking_is_stable quicksort_by_amount true (tied_sales 300).
Proof.
  unfold ranking_is_stable. intro H.
  apply (f_equal (fun l => map Product.Description (firstn 2 l))) in H.
  vm_compute in H. discriminate H.
Qed.

(** Up to 17 products [aquicksort] sorts by insertion, and the ranking is
    the one of a stable sort: two products with equal sums and a third, and
    seven products with sums of their own. *)
Example small_rankings :
  map Product.Description
      (product_performance
         (generate_insights quicksort_by_amount true tied_products))
  = ["Anvil"; "Bolt"; "Clamp"]%string
  /\ ranking_is_stable quicksort_by_amount true tied_products
  /\ ranking_is_stable quicksort_by_amount true seven_products.
Proof. unfold ranking_is_stable. vm_compute. repeat split; reflexivity. Qed.

(** C5 on seven products: the two slices share three rows. *)
Lemma ranking_sorted_and_sliced_witness :
  sorts_by_amount stable_by_amount
  /\ map Product.Description
         (top_products (generate_insights stable_by_amount true seven_products))
     = ["P2"; "P6"; "P4"; "P7"; "P3"]%string
  /\ map Product.Description
         (underperforming_products
            (generate_insights stable_by_amount true seven_products))
     = ["P4"; "P7"; "P3"; "P5"; "P1"]%string
  /\ StronglySorted amount_ge
       (top_products (generate_insights stable_by_amount true seven_products))
  /\ StronglySorted amount_ge
       (underperforming_products
          (generate_insights stable_by_amount true seven_products))
  /\ skipn 2 (top_products
                (generate_insights stable_by_amount true seven_products))
     = firstn 3 (underperforming_products
                   (generate_insights stable_by_amount true seven_products)).
Proof.
  split; [exact stable_by_amount_sorts|].
  split; [vm_compute; reflexivity|]. split; [vm_compute; reflexivity|].
  destruct (ranking_sorted_and_sliced stable_by_amount true
              stable_by_amount_sorts seven_products)
    as (_ & _ & _ & _ & _ & Htop & Hbottom & _ & Hshare).
  split; [exact Htop|]. split; [exact Hbottom|].
  apply (proj1 (Hshare ltac:(vm_compute; lia))).
Defined.

(** C7 with the stable sort, for either setting of [observed]. *)
Lemma empty_table_gives_empty_bundle_witness :
  sorts_by_amount stable_by_amount
  /\ generate_insights stable_by_amount true [] = mkInsights 0 0 0 [] [] [] [] []
  /\ net_profit (generate_insights stable_by_amount false []) = 0
  /\ monthly_reviews (generate_insights stable_by_amount false []) = []
  /\ product_performance (generate_insights stable_by_amount false []) = [].
Proof.
  split; [exact stable_by_amount_sorts|].
  split; [vm_compute; reflexivity|].
  destruct (empty_table_gives_empty_bundle stable_by_amount false
              stable_by_amount_sorts)
    as (_ & _ & Hnet & _ & Hreviews & Hranking & _).
  auto.
Defined.

(** C8 refuted: in the report of the scenario the part behind the first page
    break does not begin with a table, and its table has three rows, not
    two. *)
Lemma monthly_table_has_three_rows :
  let elements :=
    after_page_break
      (generate_pdf "2024-06-01" "Business Performance Report" None None
         (generate_insights stable_by_amount true widget_records)) in
  ~ two_row_sections
      (monthly_reviews (generate_insights stable_by_amount true widget_records))
      elements
  /\ tables elements
     = [[[Text "Sales"; Money 100];
         [Text "Expenses"; Money 40];
         [Text "Profit"; Money 60]]].
Proof.
  split.
  - intro H. vm_compute in H.
    destruct H as (data & widths & src & w & h & rest & Heq & _).
    discriminate Heq.
  - vm_compute. reflexivity.
Qed.

(** * Further properties of the code *)

(** ** More on [analyze_data] *)

Section AnalyzeMore.

Variable parse_number : string -> option Q.
Variable parse_date : string -> option date.
Variable sort_by_month : list Rec.row -> list Rec.row.

Local Abbreviation coerced := (coerce_amount parse_number).
Local Abbreviation retained := (dropna parse_number).
Local Abbreviation enriching := (enrich parse_date).
Local Abbreviation normalize :=
  (analyze_data parse_number parse_date sort_by_month).

Lemma coerce_amount_idem (r : Raw.row) : coerced (coerced r) = coerced r.
Proof.
  unfold coerce_amount; simpl. rewrite to_numeric_numeric_cell. reflexivity.
Qed.

(** X1.  Handing [analyze_data] the table a first call left behind changes
    nothing: the second call leaves the caller's table as it found it and
    returns what the first call returned. *)
Theorem analyze_data_twice (df : list Raw.row) :
  normalize (fst (normalize df)) = normalize df.
Proof.
  unfold analyze_data; simpl.
  assert (E : map coerced (map coerced df) = map coerced df).
  { rewrite map_map. apply map_ext. intro r. apply coerce_amount_idem. }
  rewrite E. reflexivity.
Qed.

Lemma dropna_coerced (df : list Raw.row) :
  map snd (retained (map coerced df)) = map snd (retained df).
Proof.
  induction df as [|r df IH]; simpl; [reflexivity|].
  rewrite to_numeric_numeric_cell.
  destruct (to_numeric parse_number (Raw.Amount r)); simpl; congruence.
Qed.

Lemma traverse_enrich_amounts (kept : list (Raw.row * Q)) (rows : list Rec.row) :
  traverse enriching kept = Some rows ->
  map Rec.Amount rows = map snd kept
  /\ Forall typed_by_sign rows
  /\ Forall (fun x => Rec.Month x = month_of (Rec.Date x)) rows.
Proof.
  rewrite traverse_Some. induction 1 as [|rq x kept rows Hx _ IH]; simpl.
  - repeat split; constructor.
  - destruct IH as [IHa [IHt IHm]].
    unfold enrich in Hx. destruct (parse_date _); [|discriminate].
    injection Hx as <-. simpl.
    split; [congruence|]. split; constructor; try assumption; reflexivity.
Qed.

Lemma dropna_length (df : list Raw.row) :
  (List.length (retained df) <= List.length df)%nat.
Proof.
  induction df as [|r df IH]; simpl; [lia|].
  destruct (to_numeric parse_number (Raw.Amount r)); simpl; lia.
Qed.

Hypothesis sort_by_month_sorts : sorts_by_month sort_by_month.

(** The rows [analyze_data] returns carry the type of their amount and the
    month of their date. *)
Lemma analyze_data_rows (df : list Raw.row) (out : list Rec.row) :
  snd (normalize df) = Some out ->
  Forall typed_by_sign out
  /\ Forall (fun x => Rec.Month x = month_of (Rec.Date x)) out
  /\ Permutation (map Rec.Amount out) (numeric_amounts parse_number df).
Proof.
  intro Hout.
  destruct (analyze_data_Some _ _ _ df out Hout) as [rows [Hrows ->]].
  destruct (traverse_enrich_amounts _ _ Hrows) as [Ha [Ht Hm]].
  assert (HP := proj1 (sort_by_month_sorts rows)).
  split; [|split].
  - apply (Permutation_Forall (Permutation_sym HP) Ht).
  - apply (Permutation_Forall (Permutation_sym HP) Hm).
  - unfold numeric_amounts. rewrite <- dropna_coerced, <- Ha.
    apply Permutation_map, HP.
Qed.

(** X2.  What [analyze_data] returns holds, up to order, exactly the numbers
    of the input's [Amount] column: none is altered, repeated or made up, so
    there are never more rows than the input had; and a table in which no
    amount is a number comes back empty, without an error, whatever its
    dates are. *)
Theorem amounts_are_kept (df : list Raw.row) :
  (forall out, snd (normalize df) = Some out ->
     Permutation (map Rec.Amount out) (numeric_amounts parse_number df)
     /\ (List.length out <= List.length df)%nat)
  /\ (numeric_amounts parse_number df = [] -> snd (normalize df) = Some []).
Proof.
  split.
  - intros out Hout.
    destruct (analyze_data_rows df out Hout) as (_ & _ & HP).
    split; [exact HP|].
    apply Permutation_length in HP. rewrite !length_map in HP.
    unfold numeric_amounts in HP. rewrite length_map in HP.
    rewrite HP. apply dropna_length.
  - intro Hnone. unfold analyze_data; simpl.
    assert (E : retained (map coerced df) = []).
    { apply (f_equal (@List.length Q)) in Hnone.
      unfold numeric_amounts in Hnone. rewrite <- dropna_coerced in Hnone.
      rewrite length_map in Hnone.
      destruct (retained (map coerced df)); [reflexivity | discriminate]. }
    rewrite E. simpl. f_equal.
    apply Permutation_nil, Permutation_sym, sort_by_month_sorts.
Qed.

End AnalyzeMore.

(** ** More on the product ranking *)

Lemma description_lt_irrefl (a : string) : ~ description_lt a a.
Proof.
  unfold description_lt. intro H.
  assert (E : String.compare a a = Eq)
    by (apply String_as_OT.cmp_eq; reflexivity).
  congruence.
Qed.

Lemma sorted_keys_NoDup (l : list string) : NoDup (sorted_keys l).
Proof.
  assert (H := sorted_keys_sorted l).
  induction H as [|d keys _ IH Hall]; constructor; [|exact IH].
  intro Hin. rewrite Forall_forall in Hall.
  apply (description_lt_irrefl d), Hall, Hin.
Qed.

Lemma groupby_description_keys (rows : list Rec.row) :
  map Product.Description (groupby_description rows)
  = sorted_keys (map Rec.Description rows).
Proof.
  unfold groupby_description. rewrite map_map; simpl. apply map_id.
Qed.

Lemma In_skipn_le {A} (a b : nat) (x : A) (l : list A) :
  (a <= b)%nat -> In x (skipn b l) -> In x (skipn a l).
Proof.
  intros Hab Hx. replace b with ((b - a) + a)%nat in Hx by lia.
  rewrite <- skipn_skipn in Hx.
  rewrite <- (firstn_skipn (b - a) (skipn a l)).
  apply in_or_app. now right.
Qed.

Lemma NoDup_app_disjoint {A} (l1 l2 : list A) (x : A) :
  NoDup (l1 ++ l2) -> In x l1 -> In x l2 -> False.
Proof.
  induction l1 as [|a l1 IH]; simpl; intros Hnd H1 H2; [exact H1|].
  inversion Hnd as [|a' l' Ha Hnd']; subst.
  destruct H1 as [->|H1].
  - apply Ha, in_or_app. now right.
  - exact (IH Hnd' H1 H2).
Qed.

Lemma StronglySorted_app_cross {A} (R : A -> A -> Prop) (l1 l2 : list A)
  (a b : A) :
  StronglySorted R (l1 ++ l2) -> In a l1 -> In b l2 -> R a b.
Proof.
  induction l1 as [|x l1 IH]; simpl; intros Hs Ha Hb; [destruct Ha|].
  inversion Hs as [|x' l' Hs' Hall]; subst.
  destruct Ha as [->|Ha].
  - rewrite Forall_forall in Hall. apply Hall, in_or_app. now right.
  - exact (IH Hs' Ha Hb).
Qed.

Section RankingMore.

Variable sort_by_amount : list Product.row -> list Product.row.
Variable observed : bool.
Hypothesis sort_by_amount_sorts : sorts_by_amount sort_by_amount.

Local Abbreviation ranked := (generate_insights sort_by_amount observed).

(** X7.  From ten products on, the two lists share nothing: a product of
    the top five and a product of the bottom five never have the same
    description, and the sum of the first is at least the sum of the
    second. *)
Theorem top_and_bottom_apart_from_ten (df : list Rec.row) :
  (10 <= List.length (product_performance (ranked df)))%nat ->
  forall a b,
    In a (top_products (ranked df)) ->
    In b (underperforming_products (ranked df)) ->
    Product.Description a <> Product.Description b
    /\ Product.Amount b <= Product.Amount a.
Proof.
  set (ranking := product_performance (ranked df)).
  intros Hlen a b Htop Hbottom.
  assert (HP : Permutation ranking
                 (groupby_description (filter (is_type Sales) df)))
    by apply sort_by_amount_sorts.
  assert (Hnd : NoDup (map Product.Description ranking)).
  { apply (Permutation_NoDup
             (Permutation_sym (Permutation_map Product.Description HP))).
    rewrite groupby_description_keys. apply sorted_keys_NoDup. }
  assert (Hsorted : StronglySorted amount_ge ranking).
  { apply Sorted_StronglySorted; [|apply sort_by_amount_sorts].
    intros x y z. apply amount_ge_trans. }
  assert (Hunder : In b (skipn 5 ranking)).
  { apply (In_skipn_le 5 (List.length ranking - 5)); [lia | exact Hbottom]. }
  rewrite <- (firstn_skipn 5 ranking) in Hnd, Hsorted.
  rewrite map_app in Hnd.
  split.
  - intro Heq.
    apply (NoDup_app_disjoint _ _ (Product.Description a) Hnd).
    + apply in_map, Htop.
    + rewrite Heq. apply in_map, Hunder.
  - exact (StronglySorted_app_cross _ _ _ a b Hsorted Htop Hunder).
Qed.

End RankingMore.

(** ** More on the report *)

Lemma tables_app (l1 l2 : list flowable) :
  tables (l1 ++ l2) = tables l1 ++ tables l2.
Proof.
  induction l1 as [|e l1 IH]; simpl; [reflexivity|].
  destruct e; simpl; congruence.
Qed.

Lemma tables_monthly (reviews : list Review.t) :
  tables (flat_map monthly_elements reviews) = map monthly_table reviews.
Proof.
  induction reviews as [|review reviews IH]; simpl; [reflexivity|].
  rewrite IH. reflexivity.
Qed.

Lemma page_breaks_app (l1 l2 : list flowable) :
  page_breaks (l1 ++ l2) = (page_breaks l1 + page_breaks l2)%nat.
Proof. unfold page_breaks. rewrite filter_app, length_app. reflexivity. Qed.

Lemma page_breaks_monthly (reviews : list Review.t) :
  page_breaks (flat_map monthly_elements reviews) = List.length reviews.
Proof.
  induction reviews as [|review reviews IH]; simpl; [reflexivity|].
  unfold page_breaks in *. simpl. rewrite IH. reflexivity.
Qed.

Lemma length_monthly (reviews : list Review.t) :
  List.length (flat_map monthly_elements reviews)
  = (6 * List.length reviews)%nat.
Proof.
  induction reviews as [|review reviews IH]; simpl; [reflexivity|].
  rewrite IH. lia.
Qed.

Lemma summary_rows_fold (reviews : list Review.t) (rows : list (list tcell)) :
  fold_left (fun rows review => rows ++ [summary_row review]) reviews rows
  = rows ++ map summary_row reviews.
Proof.
  revert rows. induction reviews as [|review reviews IH]; intro rows; simpl.
  - symmetry. apply app_nil_r.
  - rewrite IH, <- app_assoc. reflexivity.
Qed.

(** Behind a page break, the monthly sections end with a page break. *)
Lemma ends_with_page_break (reviews : list Review.t) (front0 : list flowable) :
  exists front,
    (front0 ++ [PageBreak]) ++ flat_map monthly_elements reviews
    = front ++ [PageBreak].
Proof.
  revert front0. induction reviews as [|review reviews IH]; intro front0; simpl.
  - exists front0. apply app_nil_r.
  - destruct (IH ((front0 ++ [PageBreak])
                  ++ firstn 5 (monthly_elements review))) as [front Hfront].
    exists front. rewrite <- Hfront. simpl. rewrite <- !app_assoc. reflexivity.
Qed.

(** X10.  The report holds one table more than there are monthly reviews:
    first the annual summary, a header row and then one row per review in
    the order of the reviews, each of four cells (month name, sales,
    expenses as an absolute value, profit); then the three-row table of each
    month. *)
Theorem report_tables (today title : string)
  (business_logo business_name : option string) (insights : Insights) :
  let reviews := monthly_reviews insights in
  let annual := summary_header :: map summary_row reviews in
  tables (generate_pdf today title business_logo business_name insights)
  = annual :: map monthly_table reviews
  /\ List.length annual = S (List.length reviews)
  /\ Forall (fun r => List.length r = 4%nat) annual
  /\ Forall (fun review =>
               summary_row review
               = [Text (month_name (Review.Month review));
                  Money (Review.Sales review);
                  Money (Qabs (Review.Expenses review));
                  Money (Review.Profit review)]
               /\ 0 <= Qabs (Review.Expenses review))
            reviews.
Proof.
  intros reviews annual. subst annual reviews.
  split; [|split; [|split]].
  - unfold generate_pdf.
    rewrite fold_left_append, summary_rows_fold, tables_app, tables_monthly.
    destruct business_logo; reflexivity.
  - simpl. rewrite length_map. reflexivity.
  - constructor; [reflexivity|].
    rewrite Forall_map. apply Forall_forall. intros review _. reflexivity.
  - apply Forall_forall. intros review _.
    split; [reflexivity | apply Qabs_nonneg].
Qed.

(** X11.  The report of a bundle with [n] monthly reviews has [n + 1] page
    breaks and ends with one; it has [10 + 6 n] flowables and one more with a
    logo, which then comes first; and its title line shows the business name
    given, or "Business Name" when none or an empty one was given. *)
Theorem report_layout (today title : string)
  (business_logo business_name : option string) (insights : Insights) :
  let elements :=
    generate_pdf today title business_logo business_name insights in
  let n := List.length (monthly_reviews insights) in
  page_breaks elements = S n
  /\ (exists front, elements = front ++ [PageBreak])
  /\ List.length elements
     = ((match business_logo with Some _ => 11 | None => 10 end) + 6 * n)%nat
  /\ hd_error elements
     = Some (match business_logo with
             | Some file => Image (Logo file) 100 100
             | None =>
                 Paragraph ("<b>" ++ name_or_default business_name ++ "</b>")
                           Title
             end)
  /\ In (Paragraph ("<b>" ++ name_or_default business_name ++ "</b>") Title)
        elements
  /\ (name_or_default business_name
      = match business_name with
        | None | Some EmptyString => "Business Name"%string
        | Some given => given
        end).
Proof.
  intros elements n. subst elements n.
  unfold generate_pdf. rewrite fold_left_append.
  split; [|split; [|split; [|split; [|split]]]].
  - rewrite page_breaks_app, page_breaks_monthly.
    destruct business_logo; reflexivity.
  - match goal with
    | |- exists front, ?X ++ _ = _ =>
        assert (Hfront : exists front0, X = front0 ++ [PageBreak])
    end.
    { destruct business_logo; simpl.
      - eexists [_; _; _; _; _; _; _; _; _; _]. reflexivity.
      - eexists [_; _; _; _; _; _; _; _; _]. reflexivity. }
    destruct Hfront as [front0 ->]. apply ends_with_page_break.
  - rewrite length_app, length_monthly.
    destruct business_logo; rewrite !length_app; simpl; lia.
  - destruct business_logo; reflexivity.
  - apply in_or_app. left. destruct business_logo; simpl; tauto.
  - destruct business_name as [[|c s]|]; reflexivity.
Qed.

(** ** Login and the session *)

Section LoginFacts.

Variable hash_password : string -> string.
Variable same_username : string -> string -> bool.

Local Abbreviation validate := (validate_user hash_password same_username).
Local Abbreviation run_main := (main hash_password same_username).
Local Abbreviation run_session := (session hash_password same_username).
Local Abbreviation accepts := (accepted hash_password same_username).

(** X12.  A run of [main] opens the session only for a pressed Login button
    with a reachable database in which the first row matching the user name
    stores the hash of the password given and a role that is neither NULL
    nor empty; an open session stays open exactly as long as the menu is not
    on Logout, whatever the database does. *)
Theorem session_opens_on_valid_login (conn : option (list User.row))
  (w : widgets) :
  (fst (run_main false conn w) = true
   <-> login_clicked w = true
       /\ exists users user c role,
            conn = Some users
            /\ fetchone same_username users (username_input w) = Some user
            /\ User.password user = Some (hash_password (password_input w))
            /\ User.role user = Some (String c role))
  /\ (fst (run_main true conn w) = true <-> menu_option w = MenuDashboard).
Proof.
  split.
  - unfold main, validate_user; simpl. split.
    + destruct (login_clicked w); [|discriminate].
      destruct conn as [users|]; [|discriminate].
      destruct (fetchone same_username users (username_input w))
        as [user|] eqn:Eu; [|discriminate].
      destruct (User.password user) as [stored|] eqn:Ep; [|discriminate].
      destruct (String.eqb_spec (hash_password (password_input w)) stored)
        as [<-|_]; [|discriminate].
      destruct (User.role user) as [[|c role]|] eqn:Er; try discriminate.
      intros _. split; [reflexivity|].
      exists users, user, c, role. auto.
    + intros [-> (users & user & c & role & -> & Eu & Ep & Er)].
      rewrite Eu, Ep, String.eqb_refl, Er. reflexivity.
  - unfold main; simpl. destruct (menu_option w); split; intro H;
      try reflexivity; discriminate.
Qed.

Lemma main_accepts (s : bool) (run : option (list User.row) * widgets) :
  fst (run_main s (fst run) (snd run)) = true -> s = true \/ accepts run.
Proof.
  intro H. destruct s; [now left|]. right. unfold accepted.
  unfold main in H; simpl in H.
  destruct (login_clicked (snd run)); [|discriminate].
  split; [reflexivity|].
  destruct (validate (fst run) (username_input (snd run))
              (password_input (snd run))) as [[|c role]|]; try discriminate.
  exists c, role. reflexivity.
Qed.

Lemma session_open (runs : list (option (list User.row) * widgets)) (s : bool) :
  fst (run_session runs s) = true ->
  s = true \/ exists run, In run runs /\ accepts run.
Proof.
  revert s. induction runs as [|[conn w] runs IH]; intros s; simpl.
  - intro H. now left.
  - destruct (run_main s conn w) as [s' shown] eqn:Em.
    destruct (run_session runs s') as [final pages] eqn:Es. simpl.
    intro Hfinal.
    assert (H' : fst (run_session runs s') = true) by (rewrite Es; exact Hfinal).
    destruct (IH s' H') as [Hs'|[run [Hin Hacc]]].
    + assert (Hm : fst (run_main s (fst (conn, w)) (snd (conn, w))) = true)
        by (simpl; rewrite Em; exact Hs').
      destruct (main_accepts s (conn, w) Hm) as [Hs|Hacc]; [now left|].
      right. exists (conn, w). split; [now left | exact Hacc].
    + right. exists run. split; [now right | exact Hacc].
Qed.

Lemma session_app (pre post : list (option (list User.row) * widgets))
  (s : bool) :
  run_session (pre ++ post) s
  = (fst (run_session post (fst (run_session pre s))),
     snd (run_session pre s) ++ snd (run_session post (fst (run_session pre s)))).
Proof.
  revert s. induction pre as [|[conn w] pre IH]; intro s; simpl.
  - destruct (run_session post s); reflexivity.
  - destruct (run_main s conn w) as [s' shown]. rewrite IH.
    destruct (run_session pre s') as [s1 p1]. simpl.
    destruct (run_session post s1); reflexivity.
Qed.

Lemma session_length (runs : list (option (list User.row) * widgets)) (s : bool) :
  List.length (snd (run_session runs s)) = List.length runs.
Proof.
  revert s. induction runs as [|[conn w] runs IH]; intro s; simpl; [reflexivity|].
  destruct (run_main s conn w) as [s' shown].
  specialize (IH s'). destruct (run_session runs s'). simpl in *. congruence.
Qed.

(** The page of the run behind [pre] in a session. *)
Lemma session_page (pre post : list (option (list User.row) * widgets))
  (run : option (list User.row) * widgets) :
  nth_error (snd (run_session (pre ++ run :: post) false)) (List.length pre)
  = Some (snd (run_main (fst (run_session pre false)) (fst run) (snd run))).
Proof.
  rewrite session_app. simpl.
  rewrite nth_error_app2 by (rewrite session_length; lia).
  rewrite session_length, Nat.sub_diag.
  destruct run as [conn w]. simpl.
  destruct (run_main (fst (run_session pre false)) conn w) as [s' shown].
  destruct (run_session post s'). reflexivity.
Qed.

(** X13.  In a session that starts logged out, a run shows the dashboard
    only if an earlier run was a login that [validate_user] accepted, and
    the run that follows a logout never shows the dashboard. *)
Theorem dashboard_only_after_login
  (pre post : list (option (list User.row) * widgets))
  (run : option (list User.row) * widgets) :
  let pages := snd (run_session (pre ++ run :: post) false) in
  (nth_error pages (List.length pre) = Some DashboardPage ->
   exists earlier, In earlier pre /\ accepts earlier)
  /\ (nth_error pages (List.length pre) = Some LoggedOut ->
      nth_error pages (S (List.length pre)) <> Some DashboardPage).
Proof.
  intro pages. subst pages. rewrite session_page. split.
  - intro Hpage.
    assert (Hs : fst (run_session pre false) = true).
    { destruct (fst (run_session pre false)); [reflexivity|].
      unfold main in Hpage; simpl in Hpage.
      destruct (login_clicked (snd run)); [|discriminate].
      destruct (validate (fst run) _ _) as [[|c role]|]; discriminate. }
    destruct (session_open pre false Hs) as [Hf|Hex]; [discriminate | exact Hex].
  - intro Hpage. destruct post as [|next post].
    + rewrite (proj2 (nth_error_None _ _)); [discriminate|].
      rewrite session_length, length_app. simpl. lia.
    + replace (pre ++ run :: next :: post) with ((pre ++ [run]) ++ next :: post)
        by (rewrite <- app_assoc; reflexivity).
      replace (S (List.length pre)) with (List.length (pre ++ [run]))
        by (rewrite length_app; simpl; lia).
      rewrite session_page.
      assert (Hs : fst (run_session (pre ++ [run]) false) = false).
      { rewrite session_app. simpl. destruct run as [conn w]. simpl in *.
        destruct (run_main (fst (run_session pre false)) conn w)
          as [s' shown] eqn:Em. simpl in *.
        injection Hpage as ->.
        unfold main in Em.
        destruct (negb (fst (run_session pre false))).
        - destruct (login_clicked w); [|discriminate].
          destruct (validate conn _ _) as [[|c role]|]; discriminate.
        - destruct (menu_option w); [discriminate|]. congruence. }
      rewrite Hs. unfold main; simpl.
      destruct (login_clicked (snd next)); [|discriminate].
      destruct (validate (fst next) _ _) as [[|c role]|]; discriminate.
Qed.

End LoginFacts.

(** ** The further properties on the sample data *)

(** X2 on sample rows: the four numbers of [mixed_rows] are the amounts of
    the result, and [unreadable_rows] comes back empty. *)
Lemma amounts_are_kept_witness :
  sorts_by_month stable_by_month
  /\ snd (analyze_data read_number read_date stable_by_month mixed_rows)
     = Some mixed_records
  /\ Permutation (map Rec.Amount mixed_records)
                 (numeric_amounts read_number mixed_rows)
  /\ numeric_amounts read_number unreadable_rows = []
  /\ snd (analyze_data read_number read_date stable_by_month unreadable_rows)
     = Some [].
Proof.
  split; [exact stable_by_month_sorts|].
  split; [vm_compute; reflexivity|].
  split.
  - apply (proj1 (amounts_are_kept read_number read_date stable_by_month
                    stable_by_month_sorts mixed_rows) mixed_records).
    vm_compute. reflexivity.
  - split; [vm_compute; reflexivity|].
    apply (proj2 (amounts_are_kept read_number read_date stable_by_month
                    stable_by_month_sorts unreadable_rows)).
    vm_compute. reflexivity.
Defined.

(** X7 on twelve products. *)
Lemma top_and_bottom_apart_from_ten_witness :
  sorts_by_amount stable_by_amount
  /\ (10 <= List.length
              (product_performance
                 (generate_insights stable_by_amount true twelve_products)))%nat
  /\ (forall a b,
        In a (top_products
                (generate_insights stable_by_amount true twelve_products)) ->
        In b (underperforming_products
                (generate_insights stable_by_amount true twelve_products)) ->
        Product.Description a <> Product.Description b
        /\ Product.Amount b <= Product.Amount a).
Proof.
  split; [exact stable_by_amount_sorts|].
  assert (Hlen : (10 <= List.length
                          (product_performance
                             (generate_insights stable_by_amount true
                                twelve_products)))%nat)
    by (vm_compute; lia).
  split; [exact Hlen|].
  exact (top_and_bottom_apart_from_ten stable_by_amount true
           stable_by_amount_sorts twelve_products Hlen).
Defined.

Example sample_logins :
  validate_user sample_hash String.eqb (Some sample_users) "ada" "secret"
  = Some "admin"%string
  /\ validate_user sample_hash String.eqb (Some sample_users) "ada" "other"
     = None
  /\ validate_user sample_hash String.eqb None "ada" "secret" = None
  /\ fst (main sample_hash String.eqb false (Some sample_users)
            (mkWidgets "bob" "password" true MenuDashboard)) = false
  /\ fst (main sample_hash String.eqb false (Some sample_users)
            (mkWidgets "eve" "open" true MenuDashboard)) = false.
Proof. vm_compute. repeat split; reflexivity. Qed.

Example sample_session :
  session sample_hash String.eqb
          [(Some sample_users, mkWidgets "" "" false MenuDashboard);
           (Some sample_users, mkWidgets "ada" "wrong" true MenuDashboard);
           (Some sample_users, mkWidgets "ada" "secret" true MenuDashboard);
           (None, mkWidgets "ada" "secret" false MenuDashboard);
           (None, mkWidgets "" "" false MenuLogout);
           (None, mkWidgets "" "" false MenuDashboard)]
          false
  = (false,
     [LoginForm; InvalidLogin; Welcome "ada" "admin"; DashboardPage;
      LoggedOut; LoginForm]).
Proof. vm_compute. reflexivity. Qed.